(** * The MNIST record-file decoder and batch assembler

    A shallow embedding of [loadHeaderValues], [loadImages], [loadLabels]
    and the [MnistDataset] class, with the properties of the decode-and-batch
    pipeline proved over it.

    Conventions of the embedding:
    - a [Buffer] is the list of its bytes; indices and lengths are [nat];
    - a JavaScript exception or promise rejection is the [Rejected] case of
      [outcome]; the [await]s and the calls that may throw are sequenced
      with the monadic bind of [outcome];
    - a [Float32Array] holds IEEE-754 binary32 values, a JavaScript number
      is a binary64 value, both as [spec_float];
    - the methods of [MnistDataset] read and write [this]: they are
      functions from the object's state to an outcome and the state after
      the call. *)

From Stdlib Require Import Strings.String.
From Stdlib Require Import ZArith QArith Qabs List Lia.
From Stdlib Require Import Strings.Byte.
From Stdlib Require Import Floats.SpecFloat.
From stdpp Require Import base option list.

Local Open Scope Z_scope.
Local Open Scope nat_scope.

(** ** Exceptions and promises *)

(** The exceptions the pipeline can raise.  [FetchError] is whatever the
    byte-fetch collaborator rejects with; [RangeError] is raised by the
    bounds checks of [Buffer] reads and of [TypedArray.prototype.set];
    [TypeError] by a property access on [undefined]; [TensorError] by the
    shape assertion of the tensor constructors.  [OutOfFuel] is no
    JavaScript exception: it is the answer of a [while_loop] whose iteration
    bound was too small; no function below gives it (see the section on
    the iteration bounds). *)
Inductive error : Type :=
| FetchError
| RangeError
| TypeError
| TensorError
| OutOfFuel.

Inductive outcome (A : Type) : Type :=
| Resolved (a : A)
| Rejected (e : error).

Arguments Resolved {A} a.
Arguments Rejected {A} e.

#[export] Instance outcome_ret : MRet outcome := @Resolved.

#[export] Instance outcome_bind : MBind outcome :=
  fun A B (k : A -> outcome B) (m : outcome A) =>
    match m with
    | Resolved a => k a
    | Rejected e => Rejected e
    end.

(** A loop whose test and body act on the loop's variables [s].  The body
    may throw, which leaves the loop. *)
Fixpoint while_loop {S : Type} (fuel : nat) (test : S -> bool)
    (body : S -> outcome S) (s : S) : outcome S :=
  if test s then
    match fuel with
    | O => Rejected OutOfFuel
    | Datatypes.S fuel' => s' ← body s; while_loop fuel' test body s'
    end
  else Resolved s.

(** ** Numbers *)

Definition prec64 : Z := 53.
Definition emax64 : Z := 1024.
Definition prec32 : Z := 24.
Definition emax32 : Z := 128.

(** An integer as a JavaScript number. *)
Definition Number_of_Z (z : Z) : spec_float :=
  binary_normalize prec64 emax64 z 0 false.

(** The [/] of two JavaScript numbers. *)
Definition Number_div (x y : spec_float) : spec_float :=
  SFdiv prec64 emax64 x y.

(** The conversion applied by a store into a [Float32Array]: rounding to the
    nearest binary32 value, ties to even. *)
Definition Math_fround (x : spec_float) : spec_float :=
  match x with
  | S754_finite s m e => binary_normalize prec32 emax32 (cond_Zopp s (Zpos m)) e s
  | _ => x
  end.

(** The binary32 values 0.0 and 1.0. *)
Definition f32_zero : spec_float := S754_zero false.
Definition f32_one : spec_float := S754_finite false 8388608 (-23).

(** The sum of two binary32 values. *)
Definition f32_add (x y : spec_float) : spec_float := SFadd prec32 emax32 x y.

(** The conversion applied by a store into an [Int32Array]. *)
Definition ToInt32 (z : Z) : Z :=
  ((z + 2 ^ 31) mod 2 ^ 32 - 2 ^ 31)%Z.

(** ** Buffers and typed arrays *)

Abbreviation Buffer := (list byte) (only parsing).
Abbreviation Float32Array := (list spec_float) (only parsing).
Abbreviation Int32Array := (list Z) (only parsing).

(** The unsigned value of a byte. *)
Definition u8 (b : byte) : Z := Z.of_N (Byte.to_N b).

Definition byteLength (buffer : Buffer) : nat := length buffer.

(** [buffer.readUInt8(offset)]: the bounds check of [Buffer] throws a
    [RangeError] when [offset] is not below the length. *)
Definition readUInt8 (buffer : Buffer) (offset : nat) : outcome Z :=
  match buffer !! offset with
  | Some b => Resolved (u8 b)
  | None => Rejected RangeError
  end.

(** [buffer.readUInt32BE(offset)]: a [RangeError] unless the four bytes
    from [offset] are inside the buffer; else
    [b0 * 2^24 + ((b1 << 16) | (b2 << 8) | b3)]. *)
Definition readUInt32BE (buffer : Buffer) (offset : nat) : outcome Z :=
  match buffer !! offset, buffer !! (offset + 1),
        buffer !! (offset + 2), buffer !! (offset + 3) with
  | Some b0, Some b1, Some b2, Some b3 =>
      Resolved (u8 b0 * 2 ^ 24 +
                Z.lor (Z.lor (Z.shiftl (u8 b1) 16) (Z.shiftl (u8 b2) 8)) (u8 b3))%Z
  | _, _, _, _ => Rejected RangeError
  end.

(** [new Float32Array(n)] and [new Int32Array(n)]: [n] zeros. *)
Definition new_Float32Array (n : nat) : Float32Array := replicate n f32_zero.
Definition new_Int32Array (n : nat) : Int32Array := replicate n 0%Z.

(** [target.set(source, offset)] on typed arrays: a [RangeError] when the
    source does not fit from [offset] on, else the source's elements
    overwrite the target's from [offset] on. *)
Definition typed_set {A : Type} (target source : list A) (offset : nat)
  : outcome (list A) :=
  if decide (length source + offset <= length target) then
    Resolved (take offset target ++ source ++
              drop (offset + length source) target)
  else Rejected RangeError.

(** [a[i] = v] on a JavaScript array: an index below the length overwrites,
    the index equal to the length extends the array by one.  (A larger index
    would leave holes; [loadHeaderValues], the only user, always assigns at
    the length, see [loadHeaderValues_inside].) *)
Definition js_assign {A : Type} (a : list A) (i : nat) (v : A) : list A :=
  if decide (i = length a) then a ++ [v] else <[i := v]> a.

(** ** MNIST data constants *)

Definition BASE_URL : string := "/data".
Definition TRAIN_IMAGES_FILE : string := BASE_URL ++ "/train-images-idx3-ubyte.gz".
Definition TRAIN_LABELS_FILE : string := BASE_URL ++ "/train-labels-idx1-ubyte.gz".
Definition TEST_IMAGES_FILE : string := BASE_URL ++ "/t10k-images-idx3-ubyte.gz".
Definition TEST_LABELS_FILE : string := BASE_URL ++ "/t10k-labels-idx1-ubyte.gz".

Definition IMAGE_HEIGHT : nat := 28.
Definition IMAGE_WIDTH : nat := 28.

Definition IMAGE_HEADER_BYTES : nat := 16.
Definition IMAGE_FLAT_SIZE : nat := IMAGE_HEIGHT * IMAGE_WIDTH.
Definition LABEL_HEADER_BYTES : nat := 8.
Definition LABEL_RECORD_BYTE : nat := 1.
Definition LABEL_FLAT_SIZE : nat := 10.

(** ** The record-file reader *)

(** [loadHeaderValues]: the loop test [i < headerLength / 4] is on
    numbers, where the quotient is exact; it is [4 * i < headerLength]. *)
Definition loadHeaderValues (buffer : Buffer) (headerLength : nat)
  : outcome (list Z) :=
  '(_, headerValues) ←
    while_loop headerLength
      (fun '(i, _) => bool_decide (4 * i < headerLength))
      (fun '(i, headerValues) =>
         (* Header data is stored in-order (aka big-endian) *)
         v ← readUInt32BE buffer (i * 4);
         Resolved (S i, js_assign headerValues i v))
      (0, []);
  Resolved headerValues.

(** ** The image decoder *)

(** The value stored for one pixel: [byte / 255.0], rounded by the store
    into the [Float32Array]. *)
Definition normalize_pixel (v : Z) : spec_float :=
  Math_fround (Number_div (Number_of_Z v) (Number_of_Z 255)).

(** [x.toString()] of an array element: a [TypeError] on [undefined]. *)
Definition toString_of {A : Type} (x : option A) : outcome unit :=
  match x with
  | Some _ => Resolved tt
  | None => Rejected TypeError
  end.

(** The body of [loadImages] after the buffer has been fetched.  The two
    [logger] calls only print; the second one reads [headerValues[1]]. *)
Definition decodeImages (buffer : Buffer) : outcome (list Float32Array) :=
  let headerBytes := IMAGE_HEADER_BYTES in
  let recordBytes := IMAGE_FLAT_SIZE in
  (* skip header *)
  headerValues ← loadHeaderValues buffer headerBytes;
  '(_, images) ←
    while_loop (byteLength buffer)
      (fun '(index, _) => bool_decide (index < byteLength buffer))
      (fun '(index, images) =>
         '(_, index, array) ←
           while_loop recordBytes
             (fun '(i, _, _) => bool_decide (i < recordBytes))
             (fun '(i, index, array) =>
                (* Normalize the pixel values into the 0-1 interval, from
                   the original 0-255 interval. *)
                v ← readUInt8 buffer index;
                Resolved (S i, S index, <[i := normalize_pixel v]> array))
             (0, index, new_Float32Array recordBytes);
         Resolved (index, images ++ [array]))
      (headerBytes, []);
  toString_of (headerValues !! 1);;
  Resolved images.

(** ** The label decoder *)

(** The body of [loadLabels] after the buffer has been fetched. *)
Definition decodeLabels (buffer : Buffer) : outcome (list Int32Array) :=
  let headerBytes := LABEL_HEADER_BYTES in
  let recordBytes := LABEL_RECORD_BYTE in
  (* skip header *)
  headerValues ← loadHeaderValues buffer headerBytes;
  '(_, labels) ←
    while_loop (byteLength buffer)
      (fun '(index, _) => bool_decide (index < byteLength buffer))
      (fun '(index, labels) =>
         '(_, index, array) ←
           while_loop recordBytes
             (fun '(i, _, _) => bool_decide (i < recordBytes))
             (fun '(i, index, array) =>
                v ← readUInt8 buffer index;
                Resolved (S i, S index, <[i := ToInt32 v]> array))
             (0, index, new_Int32Array recordBytes);
         Resolved (index, labels ++ [array]))
      (headerBytes, []);
  toString_of (headerValues !! 1);;
  Resolved labels.

(** ** The tensor facility *)

Record Tensor (A : Type) : Type := mkTensor {
  values : list A;
  shape : list nat
}.

Arguments mkTensor {A} values shape.
Arguments values {A} t.
Arguments shape {A} t.

Record ITrainDataSet : Type := mkTrainDataSet {
  xs : Tensor spec_float;
  ys : Tensor spec_float
}.

(** [tf.util.sizeFromShape]: the product of the dimensions. *)
Definition sizeFromShape (shape : list nat) : nat :=
  fold_right Nat.mul 1 shape.

(** Modelled from the spec: [tf.tensor4d] and [tf.tensor1d] belong to the
    tensor library, which is not under src/.  A tensor is a view of the flat
    buffer with the shape attached; the constructor checks that the number
    of values is the size of the shape. *)
Definition tensor4d {A : Type} (values : list A) (shape : list nat)
  : outcome (Tensor A) :=
  if decide (length values = sizeFromShape shape)
  then Resolved (mkTensor values shape)
  else Rejected TensorError.

Definition tensor1d {A : Type} (values : list A) : Tensor A :=
  mkTensor values [length values].

(** Modelled from the spec: [tf.oneHot] belongs to the tensor library, which
    is not under src/.  The row of an index holds the on-value 1 at the
    position of the index and the off-value 0 at every other position; the
    shape of the result is the shape of the indices followed by the
    depth.  The library refuses a depth below 2. *)
Definition oneHot_row (depth : nat) (index : Z) : list Z :=
  map (fun position => if decide (index = Z.of_nat position) then 1%Z else 0%Z)
      (seq 0 depth).

Definition oneHot (indices : Tensor Z) (depth : nat) : outcome (Tensor Z) :=
  if decide (depth < 2) then Rejected TensorError
  else Resolved (mkTensor (concat (map (oneHot_row depth) (values indices)))
                          (shape indices ++ [depth])).

(** [t.toFloat()]: the same shape, each integer as a binary32 value. *)
Definition f32_of_Z (z : Z) : spec_float :=
  binary_normalize prec32 emax32 z 0 false.

Definition toFloat (t : Tensor Z) : Tensor spec_float :=
  mkTensor (map f32_of_Z (values t)) (shape t).

(** ** The data set object *)

Abbreviation dataset_tuple :=
  (list Float32Array * list Int32Array * list Float32Array * list Int32Array)%type
  (only parsing).

Record MnistDataset : Type := mkMnistDataset {
  dataset : dataset_tuple;
  trainSize : nat;
  testSize : nat;
  trainBatchIndex : nat;
  testBatchIndex : nat
}.

(** [dataset[imagesIndex]] and [dataset[labelsIndex]]: the tuple holds image
    collections at 0 and 2 and label collections at 1 and 3. *)
Definition dataset_images (d : dataset_tuple) (imagesIndex : nat)
  : list Float32Array :=
  let '(d0, _, d2, _) := d in
  match imagesIndex with
  | 0 => d0
  | 2 => d2
  | _ => []
  end.

Definition dataset_labels (d : dataset_tuple) (labelsIndex : nat)
  : list Int32Array :=
  let '(_, d1, _, d3) := d in
  match labelsIndex with
  | 1 => d1
  | 3 => d3
  | _ => []
  end.

(** A method: from the state of [this] to the outcome of the call and the
    state after it.  An exception leaves the state as it was when thrown. *)
Definition Method (A : Type) : Type := MnistDataset -> outcome A * MnistDataset.

#[export] Instance method_ret : MRet Method :=
  fun A (a : A) this => (Resolved a, this).

#[export] Instance method_bind : MBind Method :=
  fun A B (k : A -> Method B) (m : Method A) this =>
    match m this with
    | (Resolved a, this') => k a this'
    | (Rejected e, this') => (Rejected e, this')
    end.

(** A computation that does not touch [this], and an awaited promise. *)
Definition lift {A : Type} (o : outcome A) : Method A := fun this => (o, this).
Definition await {A : Type} (promise : outcome A) : Method A := lift promise.

Definition get_dataset : Method dataset_tuple :=
  fun this => (Resolved (dataset this), this).

Definition set_dataset (d : dataset_tuple) : Method unit :=
  fun this =>
    (Resolved tt,
     mkMnistDataset d (trainSize this) (testSize this)
                    (trainBatchIndex this) (testBatchIndex this)).

Definition set_trainSize (n : nat) : Method unit :=
  fun this =>
    (Resolved tt,
     mkMnistDataset (dataset this) n (testSize this)
                    (trainBatchIndex this) (testBatchIndex this)).

Definition set_testSize (n : nat) : Method unit :=
  fun this =>
    (Resolved tt,
     mkMnistDataset (dataset this) (trainSize this) n
                    (trainBatchIndex this) (testBatchIndex this)).

(** The loop of a method: the body may read and write [this]. *)
Fixpoint method_while {S : Type} (fuel : nat) (test : S -> bool)
    (body : S -> Method S) (s : S) : Method S :=
  if test s then
    match fuel with
    | O => lift (Rejected OutOfFuel)
    | Datatypes.S fuel' => s' ← body s; method_while fuel' test body s'
    end
  else mret s.

(** The constructor. *)
Definition new_MnistDataset : MnistDataset :=
  mkMnistDataset ([], [], [], []) 0 0 0 0.

(** [Promise.all] of the four loads.  It resolves to the four values when
    every promise resolves; else it rejects with the reason of the promise
    that rejected first in time.  That promise is chosen by [sched]: the
    rejected promises are numbered from 0 in the order of the array, and a
    number past the last one chooses the first. *)
Definition rejections {A : Type} (promise : outcome A) : list error :=
  match promise with
  | Resolved _ => []
  | Rejected e => [e]
  end.

Definition first_settled (sched : nat) (e : error) (later : list error) : error :=
  nth sched (e :: later) e.

Definition Promise_all4 {A B C D : Type} (sched : nat)
    (p0 : outcome A) (p1 : outcome B) (p2 : outcome C) (p3 : outcome D)
  : outcome (A * B * C * D) :=
  match p0 with
  | Rejected e0 =>
      Rejected (first_settled sched e0
                  (rejections p1 ++ rejections p2 ++ rejections p3))
  | Resolved v0 =>
      match p1 with
      | Rejected e1 =>
          Rejected (first_settled sched e1 (rejections p2 ++ rejections p3))
      | Resolved v1 =>
          match p2 with
          | Rejected e2 => Rejected (first_settled sched e2 (rejections p3))
          | Resolved v2 =>
              match p3 with
              | Rejected e3 => Rejected e3
              | Resolved v3 => Resolved (v0, v1, v2, v3)
              end
          end
      end
  end.

(** [target.set(array[i], offset)]: a [TypeError] when [array[i]] is
    [undefined]. *)
Definition typed_set_from {A : Type} (target : list A)
    (source : option (list A)) (offset : nat) : outcome (list A) :=
  match source with
  | Some source => typed_set target source offset
  | None => Rejected TypeError
  end.

Section Loader.

(** The byte-fetch collaborator [fetchResource(url, true)]: the
    decompressed bytes of the resource, or a rejection. *)
Variable fetchResource : string -> bool -> outcome Buffer.

Definition loadImages (url : string) : outcome (list Float32Array) :=
  buffer ← fetchResource url true;
  decodeImages buffer.

Definition loadLabels (url : string) : outcome (list Int32Array) :=
  buffer ← fetchResource url true;
  decodeLabels buffer.

(** Loads training and test data. *)
Definition loadData (sched : nat) : Method unit :=
  d ← await (Promise_all4 sched
               (loadImages TRAIN_IMAGES_FILE) (loadLabels TRAIN_LABELS_FILE)
               (loadImages TEST_IMAGES_FILE) (loadLabels TEST_LABELS_FILE));
  set_dataset d;;
  d ← get_dataset;
  set_trainSize (length (dataset_images d 0));;
  d ← get_dataset;
  set_testSize (length (dataset_images d 2)).

End Loader.

Definition getData_ (isTrainingData : bool) : Method ITrainDataSet :=
  let '(imagesIndex, labelsIndex) :=
    if isTrainingData then (0, 1) else (2, 3) in
  d ← get_dataset;
  let size := length (dataset_images d imagesIndex) in
  (* Only create one big array to hold batch of images. *)
  let imagesShape := [size; IMAGE_HEIGHT; IMAGE_WIDTH; 1] in
  let images := new_Float32Array (sizeFromShape imagesShape) in
  let labels := new_Int32Array (sizeFromShape [size; 1]) in
  '(_, images, labels, _, _) ←
    method_while size
      (fun '(i, _, _, _, _) => bool_decide (i < size))
      (fun '(i, images, labels, imageOffset, labelOffset) =>
         d ← get_dataset;
         images ← lift (typed_set_from images
                          (dataset_images d imagesIndex !! i) imageOffset);
         d ← get_dataset;
         labels ← lift (typed_set_from labels
                          (dataset_labels d labelsIndex !! i) labelOffset);
         mret (S i, images, labels,
               imageOffset + IMAGE_FLAT_SIZE, labelOffset + 1))
      (0, images, labels, 0, 0);
  xs ← lift (tensor4d images imagesShape);
  ys ← lift (oneHot (tensor1d labels) LABEL_FLAT_SIZE);
  mret (mkTrainDataSet xs (toFloat ys)).

Definition getTrainData : Method ITrainDataSet := getData_ true.

Definition getTestData : Method ITrainDataSet := getData_ false.

(** ** Reference notions used by the statements *)

(** The big-endian unsigned value of a sequence of bytes. *)
Definition big_endian (bytes : list byte) : Z :=
  fold_left (fun acc b => (acc * 256 + u8 b)%Z) bytes 0%Z.

(** The bytes of record [r] of a file with an [h]-byte header and
    [n]-byte records. *)
Definition record_bytes (h n : nat) (buffer : Buffer) (r : nat) : list byte :=
  take n (drop (h + n * r) buffer).

(** The image record decoded from the 784 bytes of record [r]. *)
Definition image_of_record (buffer : Buffer) (r : nat) : Float32Array :=
  map (fun b => normalize_pixel (u8 b))
      (record_bytes IMAGE_HEADER_BYTES IMAGE_FLAT_SIZE buffer r).

(** The label record decoded from the byte of record [r]. *)
Definition label_of_record (buffer : Buffer) (r : nat) : Int32Array :=
  map u8 (record_bytes LABEL_HEADER_BYTES LABEL_RECORD_BYTE buffer r).

(** The rational number that a finite floating-point value stands for. *)
Definition Q_of_float (x : spec_float) : Q :=
  match x with
  | S754_finite s m e => (inject_Z (cond_Zopp s (Zpos m)) * Qpower 2 e)%Q
  | _ => 0%Q
  end.

(** The distance of the stored pixel value from the quotient [v / 255] is
    at most half a unit in the last place of a binary32 value below 1. *)
Definition pixel_is_quotient (v : Z) : bool :=
  Qle_bool (Qabs (Q_of_float (normalize_pixel v) - (v # 255))) (1 # 2 ^ 25).

(** The sum of a row of binary32 values, from the left. *)
Definition f32_sum (row : list spec_float) : spec_float :=
  fold_left f32_add row f32_zero.

(** Row [i] of a tensor of shape [[rows, width]]. *)
Definition tensor_row {A : Type} (width : nat) (t : Tensor A) (i : nat) : list A :=
  take width (drop (i * width) (values t)).

(** ** Example files *)

(** A label file: magic 2049, declared count 2, labels 3 and 7. *)
Definition label_file_3_7 : Buffer :=
  [x00; x00; x08; x01; x00; x00; x00; x02; x03; x07].

(** An image file with one record, 783 pixels of 255 and a last pixel of 1.
    Its header is all zeros: the declared count is 0. *)
Definition image_file_one : Buffer :=
  replicate 16 x00 ++ replicate 783 xff ++ [x01].

(** The same file with one more byte: one record and a partial one. *)
Definition image_file_partial : Buffer := image_file_one ++ [x00].

(** An image file with two records, and one with none. *)
Definition image_file_two : Buffer :=
  replicate 16 x00 ++ replicate 784 x00 ++ replicate 784 xff.

Definition image_file_empty : Buffer := replicate 16 x00.

(** A label file with the single label 10. *)
Definition label_file_10 : Buffer :=
  [x00; x00; x08; x01; x00; x00; x00; x01; x0a].

(** A byte-fetch collaborator that answers the four URLs of the loader. *)
Definition serve (train_images train_labels test_images test_labels : outcome Buffer)
  : string -> bool -> outcome Buffer :=
  fun url _ =>
    if String.eqb url TRAIN_IMAGES_FILE then train_images
    else if String.eqb url TRAIN_LABELS_FILE then train_labels
    else if String.eqb url TEST_IMAGES_FILE then test_images
    else if String.eqb url TEST_LABELS_FILE then test_labels
    else Rejected FetchError.

(** Two training images with the labels 3 and 7; one test image with the
    label 10. *)
Definition fetch_example : string -> bool -> outcome Buffer :=
  serve (Resolved image_file_two) (Resolved label_file_3_7)
        (Resolved image_file_one) (Resolved label_file_10).

(** No test image, but two test labels. *)
Definition fetch_mismatch : string -> bool -> outcome Buffer :=
  serve (Resolved image_file_one) (Resolved label_file_10)
        (Resolved image_file_empty) (Resolved label_file_3_7).

(** The fetch of the test labels fails. *)
Definition fetch_failing : string -> bool -> outcome Buffer :=
  serve (Resolved image_file_one) (Resolved label_file_10)
        (Resolved image_file_two) (Rejected FetchError).

(** ** Loaded states *)

(** The state [this] is the state after a call of [loadData] that
    resolved. *)
Definition Loaded (this : MnistDataset) : Prop :=
  exists fetchResource sched this0,
    loadData fetchResource sched this0 = (Resolved tt, this).

(** The state after loading the example files into a new object. *)
Definition loaded_example : MnistDataset :=
  (loadData fetch_example 0 new_MnistDataset).2.

(** The images and the labels of a split. *)
Definition split_images (this : MnistDataset) (isTrainingData : bool)
  : list Float32Array :=
  dataset_images (dataset this) (if isTrainingData then 0 else 2).

Definition split_labels (this : MnistDataset) (isTrainingData : bool)
  : list Int32Array :=
  dataset_labels (dataset this) (if isTrainingData then 1 else 3).

(** ** States the object can be in *)

(** The states of an object: the constructor's state, and the state after
    any call of [loadData] (resolved or rejected) or of [getData_] on such a
    state. *)
Inductive Reachable : MnistDataset -> Prop :=
| Reachable_new : Reachable new_MnistDataset
| Reachable_loadData (fetchResource : string -> bool -> outcome Buffer)
    (sched : nat) (this : MnistDataset) :
    Reachable this -> Reachable (loadData fetchResource sched this).2
| Reachable_getData_ (isTrainingData : bool) (this : MnistDataset) :
    Reachable this -> Reachable (getData_ isTrainingData this).2.

(** The number of words [loadHeaderValues] reads for a header length: the
    number of [i] with [i < headerLength / 4]. *)
Definition header_word_count (headerLength : nat) : nat := (headerLength + 3) / 4.

(** The order of the stored pixel values, as rational numbers. *)
Definition pixel_lt (v w : Z) : bool :=
  negb (Qle_bool (Q_of_float (normalize_pixel w)) (Q_of_float (normalize_pixel v))).

Definition pixel_in_unit_interval (v : Z) : bool :=
  Qle_bool 0 (Q_of_float (normalize_pixel v)) &&
  Qle_bool (Q_of_float (normalize_pixel v)) 1.

(** A label file with a header and no label, and example collaborators:
    a training image without a label, and one with two labels. *)
Definition label_file_empty : Buffer := [x00; x00; x08; x01; x00; x00; x00; x00].

Definition fetch_unlabelled : string -> bool -> outcome Buffer :=
  serve (Resolved image_file_one) (Resolved label_file_empty)
        (Resolved image_file_empty) (Resolved label_file_empty).

Definition fetch_extra_labels : string -> bool -> outcome Buffer :=
  serve (Resolved image_file_one) (Resolved label_file_3_7)
        (Resolved image_file_empty) (Resolved label_file_empty).

(** * Properties *)

(** Linear arithmetic with the quotient and remainder of [a] by [b]. *)
Ltac lia_div a b :=
  pose proof (Nat.div_mod_eq a b);
  pose proof (Nat.mod_upper_bound a b);
  lia.

(** ** Loops *)

(** A loop whose body keeps an invariant and decreases a measure bounded by
    the fuel ends normally, with the invariant and the test false. *)
Lemma while_loop_ends {S : Type} (I : S -> Prop) (m : S -> nat)
    (test : S -> bool) (body : S -> outcome S) :
  (forall s, I s -> test s = true ->
     exists s', body s = Resolved s' /\ I s' /\ m s' < m s) ->
  forall fuel s, I s -> m s <= fuel ->
    exists s', while_loop fuel test body s = Resolved s' /\ I s' /\ test s' = false.
Proof.
  intros Hbody fuel. induction fuel as [|fuel IH]; intros s HI Hm; simpl.
  - destruct (test s) eqn:Ht; [|eauto].
    destruct (Hbody s HI Ht) as (s' & _ & _ & Hlt). lia.
  - destruct (test s) eqn:Ht; [|eauto].
    destruct (Hbody s HI Ht) as (s' & -> & HI' & Hlt). simpl.
    apply IH; [done | lia].
Qed.

(** A loop that cannot end normally while its invariant holds, and whose
    body either throws [e] or keeps the invariant, throws [e]. *)
Lemma while_loop_throws {S : Type} (I : S -> Prop) (m : S -> nat)
    (test : S -> bool) (body : S -> outcome S) (e : error) :
  (forall s, I s -> test s = true) ->
  (forall s, I s ->
     body s = Rejected e \/ exists s', body s = Resolved s' /\ I s' /\ m s' < m s) ->
  forall fuel s, I s -> m s < fuel -> while_loop fuel test body s = Rejected e.
Proof.
  intros Htest Hbody fuel. induction fuel as [|fuel IH]; intros s HI Hm; [lia|].
  simpl. rewrite (Htest s HI).
  destruct (Hbody s HI) as [-> | (s' & -> & HI' & Hlt)]; [done|]. simpl.
  apply IH; [done | lia].
Qed.

(** ** Bytes and big-endian words *)

Lemma u8_range (b : byte) : (0 <= u8 b < 256)%Z.
Proof. unfold u8. pose proof (Byte.to_N_bounded b). lia. Qed.

Lemma lor_shiftl_low (x c : Z) (n : Z) :
  (0 <= n)%Z -> (0 <= c < 2 ^ n)%Z ->
  Z.lor (Z.shiftl x n) c = (x * 2 ^ n + c)%Z.
Proof.
  intros Hn Hc.
  assert (Hland : Z.land (Z.shiftl x n) c = 0%Z).
  { apply Z.bits_inj'. intros i Hi.
    rewrite Z.land_spec, Z.bits_0.
    destruct (Z.lt_ge_cases i n) as [Hlt | Hge].
    - rewrite Z.shiftl_spec_low by done. done.
    - destruct (Z.eq_dec c 0%Z) as [-> | Hc0].
      + rewrite Z.bits_0. apply andb_false_r.
      + assert (Z.log2 c < n)%Z by (apply Z.log2_lt_pow2; lia).
        rewrite (Z.bits_above_log2 c i) by lia. apply andb_false_r. }
  rewrite <- Z.lxor_lor by done.
  rewrite <- Z.add_nocarry_lxor by done.
  rewrite Z.shiftl_mul_pow2 by done. done.
Qed.

Lemma big_endian_4 (b0 b1 b2 b3 : byte) :
  (u8 b0 * 2 ^ 24 +
   Z.lor (Z.lor (Z.shiftl (u8 b1) 16) (Z.shiftl (u8 b2) 8)) (u8 b3))%Z
  = big_endian [b0; b1; b2; b3].
Proof.
  pose proof (u8_range b1). pose proof (u8_range b2). pose proof (u8_range b3).
  rewrite (Z.shiftl_mul_pow2 (u8 b1)) by lia.
  replace (u8 b1 * 2 ^ 16)%Z with (Z.shiftl (u8 b1 * 2 ^ 8) 8)
    by (rewrite Z.shiftl_mul_pow2 by lia; lia).
  rewrite <- Z.shiftl_lor.
  rewrite (lor_shiftl_low _ (u8 b3) 8) by lia.
  replace (u8 b1 * 2 ^ 8)%Z with (Z.shiftl (u8 b1) 8)
    by (rewrite Z.shiftl_mul_pow2 by lia; lia).
  rewrite (lor_shiftl_low _ (u8 b2) 8) by lia.
  unfold big_endian. simpl. lia.
Qed.

Lemma big_endian_4_range (b0 b1 b2 b3 : byte) :
  (0 <= big_endian [b0; b1; b2; b3] < 2 ^ 32)%Z.
Proof.
  pose proof (u8_range b0). pose proof (u8_range b1).
  pose proof (u8_range b2). pose proof (u8_range b3).
  unfold big_endian. simpl. lia.
Qed.

Lemma take_4_drop (buffer : Buffer) (offset : nat) :
  offset + 4 <= length buffer ->
  exists b0 b1 b2 b3,
    buffer !! offset = Some b0 /\ buffer !! (offset + 1) = Some b1 /\
    buffer !! (offset + 2) = Some b2 /\ buffer !! (offset + 3) = Some b3 /\
    take 4 (drop offset buffer) = [b0; b1; b2; b3].
Proof.
  intros Hlen.
  destruct (lookup_lt_is_Some_2 buffer offset) as [b0 H0]; [lia|].
  destruct (lookup_lt_is_Some_2 buffer (offset + 1)) as [b1 H1]; [lia|].
  destruct (lookup_lt_is_Some_2 buffer (offset + 2)) as [b2 H2]; [lia|].
  destruct (lookup_lt_is_Some_2 buffer (offset + 3)) as [b3 H3]; [lia|].
  exists b0, b1, b2, b3. repeat split; try done.
  rewrite (drop_S _ _ _ H0).
  replace (offset + 1) with (S offset) in H1 by lia.
  rewrite (drop_S _ _ _ H1).
  replace (offset + 2) with (S (S offset)) in H2 by lia.
  rewrite (drop_S _ _ _ H2).
  replace (offset + 3) with (S (S (S offset))) in H3 by lia.
  rewrite (drop_S _ _ _ H3). done.
Qed.

Lemma readUInt32BE_inside (buffer : Buffer) (offset : nat) :
  offset + 4 <= length buffer ->
  readUInt32BE buffer offset
  = Resolved (big_endian (take 4 (drop offset buffer))).
Proof.
  intros Hlen.
  destruct (take_4_drop buffer offset Hlen)
    as (b0 & b1 & b2 & b3 & H0 & H1 & H2 & H3 & ->).
  unfold readUInt32BE. rewrite H0, H1, H2, H3.
  by rewrite big_endian_4.
Qed.

Lemma readUInt32BE_outside (buffer : Buffer) (offset : nat) :
  length buffer < offset + 4 ->
  readUInt32BE buffer offset = Rejected RangeError.
Proof.
  intros Hlen. unfold readUInt32BE.
  rewrite (lookup_ge_None_2 buffer (offset + 3)) by lia.
  by repeat case_match.
Qed.

(** ** [loadHeaderValues] *)

(** The word at index [i] of the header. *)
Lemma loadHeaderValues_inside (buffer : Buffer) (h : nat) :
  h mod 4 = 0 -> h <= length buffer ->
  loadHeaderValues buffer h
  = Resolved (map (fun i => big_endian (take 4 (drop (4 * i) buffer)))
                  (seq 0 (h / 4))).
Proof.
  intros Hmod Hlen. unfold loadHeaderValues.
  set (word := fun i => big_endian (take 4 (drop (4 * i) buffer))).
  edestruct (while_loop_ends
    (fun '(i, headerValues) => 4 * i <= h /\ headerValues = map word (seq 0 i))
    (fun '(i, _) => h - 4 * i)) as ([i hv] & -> & [Hi ->] & Hexit);
    [| | simpl; lia |].
  - intros [i hv] [Hi ->] Htest. apply bool_decide_eq_true in Htest.
    rewrite readUInt32BE_inside by lia_div h 4. simpl.
    eexists; split; [done|]. split; [split|]; [lia_div h 4 | | lia].
    unfold js_assign. rewrite length_map, length_seq.
    rewrite decide_True by done.
    rewrite seq_S, map_app. simpl. unfold word.
    by replace (i * 4) with (4 * i) by lia.
  - simpl. split; [lia | done].
  - apply bool_decide_eq_false in Hexit.
    by replace (h / 4) with i by (lia_div h 4).
Qed.

Lemma loadHeaderValues_short (buffer : Buffer) (h : nat) :
  length buffer < h ->
  loadHeaderValues buffer h = Rejected RangeError.
Proof.
  intros Hlen. unfold loadHeaderValues.
  rewrite (while_loop_throws
    (fun '(i, _) => 4 * i <= length buffer)
    (fun '(i, _) => length buffer - 4 * i) _ _ RangeError);
    [done | | | simpl; lia | simpl; lia].
  - intros [i hv] Hi. simpl in Hi. apply bool_decide_eq_true. lia.
  - intros [i hv] Hi. simpl in Hi.
    destruct (decide (i * 4 + 4 <= length buffer)) as [Hin | Hout].
    + right. rewrite readUInt32BE_inside by done. simpl.
      eexists; split; [done|]. simpl. lia.
    + left. by rewrite readUInt32BE_outside by lia.
Qed.

(** C5.  For a header byte count [h] that is a positive multiple of 4 and at
    most the length of the buffer, [loadHeaderValues] returns exactly [h / 4]
    values, and the value at index [i] is the big-endian unsigned 32-bit
    value of the four bytes at offsets [4i .. 4i+3]. *)
Theorem loadHeaderValues_big_endian_words (buffer : Buffer) (h : nat) :
  0 < h -> h mod 4 = 0 -> h <= length buffer ->
  exists headerValues,
    loadHeaderValues buffer h = Resolved headerValues /\
    length headerValues = h / 4 /\
    forall i, i < h / 4 ->
      length (take 4 (drop (4 * i) buffer)) = 4 /\
      headerValues !! i = Some (big_endian (take 4 (drop (4 * i) buffer))) /\
      (0 <= big_endian (take 4 (drop (4 * i) buffer)) < 2 ^ 32)%Z.
Proof.
  intros _ Hmod Hlen. eexists. split; [by apply loadHeaderValues_inside|].
  split; [by rewrite length_map, length_seq|].
  intros i Hi.
  rewrite list_lookup_fmap, lookup_seq_lt by done.
  change (0 + i) with i. cbn [fmap option_fmap option_map].
  destruct (take_4_drop buffer (4 * i)) as (b0 & b1 & b2 & b3 & _ & _ & _ & _ & ->);
    [lia_div h 4|].
  split; [done|]. split; [done | apply big_endian_4_range].
Qed.

(** The theorem at the label file of the labels 3 and 7, with its 8 header
    bytes. *)
Lemma loadHeaderValues_big_endian_words_witness :
  exists headerValues,
    loadHeaderValues label_file_3_7 8 = Resolved headerValues /\
    length headerValues = 8 / 4 /\
    forall i, i < 8 / 4 ->
      length (take 4 (drop (4 * i) label_file_3_7)) = 4 /\
      headerValues !! i = Some (big_endian (take 4 (drop (4 * i) label_file_3_7))) /\
      (0 <= big_endian (take 4 (drop (4 * i) label_file_3_7)) < 2 ^ 32)%Z.
Proof.
  apply (loadHeaderValues_big_endian_words label_file_3_7 8).
  - lia.
  - reflexivity.
  - simpl. lia.
Defined.

(** ** The record loops of the decoders *)

Section RecordLoops.

Context {A : Type}.
Variable convert : Z -> A.
Variable zero : A.
Variable buffer : Buffer.
Variable recordBytes : nat.

(** The loop that fills one record, as written in both decoders. *)
Local Abbreviation fill_record index :=
  (while_loop recordBytes
     (fun '(i, _, _) => bool_decide (i < recordBytes))
     (fun '(i, index, array) =>
        v ← readUInt8 buffer index;
        Resolved (S i, S index, <[i := convert v]> array))
     (0, index, replicate recordBytes zero)).

(** The loop over the records, as written in both decoders. *)
Local Abbreviation read_records headerBytes :=
  (while_loop (byteLength buffer)
     (fun '(index, _) => bool_decide (index < byteLength buffer))
     (fun '(index, records) =>
        '(_, index, array) ← fill_record index;
        Resolved (index, records ++ [array]))
     (headerBytes, [])).

(** The record decoded from the bytes [bytes]. *)
Local Abbreviation decoded bytes := (map (fun b => convert (u8 b)) bytes).

Lemma fill_record_inside (index : nat) :
  index + recordBytes <= length buffer ->
  fill_record index
  = Resolved (recordBytes, index + recordBytes,
              decoded (take recordBytes (drop index buffer))).
Proof.
  intros Hlen.
  edestruct (while_loop_ends
    (fun '(i, index', array) =>
       i <= recordBytes /\ index' = index + i /\
       array = decoded (take i (drop index buffer))
               ++ replicate (recordBytes - i) zero)
    (fun '(i, _, _) => recordBytes - i))
    as ([[i index'] array] & -> & (Hi & -> & ->) & Hexit);
    [| | simpl; lia |].
  - intros [[i index'] array] (Hi & -> & ->) Htest.
    apply bool_decide_eq_true in Htest.
    destruct (lookup_lt_is_Some_2 buffer (index + i)) as [b Hb]; [lia|].
    unfold readUInt8. rewrite Hb. simpl.
    eexists; split; [done|]. simpl. split; [|lia].
    split; [lia|]. split; [lia|].
    assert (Hdrop : drop index buffer !! i = Some b) by by rewrite lookup_drop.
    rewrite (take_S_r _ _ _ Hdrop), map_app. simpl.
    replace (recordBytes - i) with (S (recordBytes - S i)) by lia.
    rewrite <- app_assoc. simpl.
    pose proof (lookup_lt_Some _ _ _ Hdrop) as Hlt.
    rewrite insert_app_r_alt; rewrite length_map, length_take; [|lia].
    by replace (i - i `min` length (drop index buffer)) with 0 by lia.
  - simpl. rewrite Nat.sub_0_r. repeat split; [lia | lia].
  - apply bool_decide_eq_false in Hexit.
    replace i with recordBytes by lia.
    by rewrite Nat.sub_diag, app_nil_r.
Qed.

Lemma fill_record_outside (index : nat) :
  index <= length buffer < index + recordBytes ->
  fill_record index = Rejected RangeError.
Proof.
  intros Hlen.
  apply (while_loop_throws
    (fun '(i, index', _) => index' = index + i /\ index' <= length buffer)
    (fun '(_, index', _) => length buffer - index')); [| | simpl; lia | simpl; lia].
  - intros [[i index'] array] [-> Hle]. apply bool_decide_eq_true. lia.
  - intros [[i index'] array] [-> Hle].
    unfold readUInt8. destruct (buffer !! (index + i)) as [b|] eqn:Hb; [right|by left].
    apply lookup_lt_Some in Hb. simpl.
    eexists; split; [done|]. simpl. lia.
Qed.

Hypothesis recordBytes_pos : 0 < recordBytes.

(** A whole number of records after the header: they are all read. *)
Lemma read_records_whole (headerBytes k : nat) :
  length buffer = headerBytes + recordBytes * k ->
  read_records headerBytes
  = Resolved (length buffer,
              map (fun r => decoded (record_bytes headerBytes recordBytes buffer r))
                  (seq 0 k)).
Proof.
  intros Hlen.
  edestruct (while_loop_ends
    (fun '(index, records) =>
       exists r, r <= k /\ index = headerBytes + recordBytes * r /\
         records = map (fun r => decoded (record_bytes headerBytes recordBytes buffer r))
                       (seq 0 r))
    (fun '(index, _) => length buffer - index))
    as ([index records] & -> & (r & Hr & -> & ->) & Hexit);
    [| | unfold byteLength; simpl; lia |].
  - intros [index records] (r & Hr & -> & ->) Htest.
    apply bool_decide_eq_true in Htest. unfold byteLength in Htest.
    assert (r < k) by nia.
    rewrite fill_record_inside by nia. simpl.
    eexists; split; [done|]. simpl. split; [|lia].
    exists (S r). split; [lia|]. split; [lia|].
    by rewrite seq_S, map_app.
  - exists 0. simpl. split; [lia|]. split; [lia | done].
  - apply bool_decide_eq_false in Hexit. unfold byteLength in Hexit.
    assert (r = k) as -> by nia.
    by rewrite <- Hlen.
Qed.

(** A partial record at the end: the read past the end throws. *)
Lemma read_records_partial (headerBytes : nat) :
  0 < headerBytes -> headerBytes <= length buffer ->
  (length buffer - headerBytes) mod recordBytes <> 0 ->
  read_records headerBytes = Rejected RangeError.
Proof.
  intros Hpos Hle Hmod.
  apply (while_loop_throws
    (fun '(index, _) =>
       exists r, index = headerBytes + recordBytes * r /\ index <= length buffer)
    (fun '(index, _) => length buffer - index));
    [| | exists 0; simpl; lia | unfold byteLength; simpl; lia].
  - intros [index records] (r & -> & Hin).
    apply bool_decide_eq_true. unfold byteLength.
    destruct (decide (headerBytes + recordBytes * r = length buffer)) as [Heq|]; [|lia].
    exfalso. apply Hmod. rewrite <- Heq.
    replace (headerBytes + recordBytes * r - headerBytes) with (r * recordBytes) by lia.
    apply Nat.Div0.mod_mul.
  - intros [index records] (r & -> & Hin).
    destruct (decide (headerBytes + recordBytes * r + recordBytes <= length buffer)).
    + right. rewrite fill_record_inside by done. simpl.
      eexists; split; [done|]. simpl. split; [|lia].
      exists (S r). lia.
    + left. by rewrite fill_record_outside by lia.
Qed.

End RecordLoops.

(** ** The decoders *)

Lemma IMAGE_FLAT_SIZE_eq : IMAGE_FLAT_SIZE = 784.
Proof. reflexivity. Qed.

Lemma ToInt32_u8 (b : byte) : ToInt32 (u8 b) = u8 b.
Proof.
  pose proof (u8_range b). unfold ToInt32.
  rewrite Z.mod_small by lia. lia.
Qed.

(** The header of the two kinds of file has at least two words, so that
    the log line can print the declared count. *)
Lemma header_declared_count (buffer : Buffer) (h : nat) :
  8 <= h ->
  toString_of
    (map (fun i => big_endian (take 4 (drop (4 * i) buffer))) (seq 0 (h / 4)) !! 1)
  = Resolved tt.
Proof.
  intros Hh. rewrite list_lookup_fmap, lookup_seq_lt; [done|].
  lia_div h 4.
Qed.

Lemma decodeImages_whole (buffer : Buffer) (k : nat) :
  length buffer = 16 + 784 * k ->
  decodeImages buffer = Resolved (map (image_of_record buffer) (seq 0 k)).
Proof.
  intros Hlen. unfold decodeImages. cbv zeta.
  rewrite loadHeaderValues_inside by (done || (unfold IMAGE_HEADER_BYTES; lia)).
  cbn [mbind outcome_bind]. unfold new_Float32Array.
  rewrite (read_records_whole normalize_pixel f32_zero buffer IMAGE_FLAT_SIZE)
    with (k := k) by (rewrite ?IMAGE_FLAT_SIZE_eq; done || lia).
  cbn [mbind outcome_bind].
  by rewrite header_declared_count by (unfold IMAGE_HEADER_BYTES; lia).
Qed.

Lemma decodeImages_malformed (buffer : Buffer) :
  ((Z.of_nat (length buffer) - 16) mod 784 <> 0)%Z ->
  decodeImages buffer = Rejected RangeError.
Proof.
  intros Hmod. unfold decodeImages. cbv zeta.
  destruct (decide (length buffer < 16)) as [Hshort | Hlong].
  - by rewrite loadHeaderValues_short.
  - rewrite loadHeaderValues_inside by (done || (unfold IMAGE_HEADER_BYTES; lia)).
    cbn [mbind outcome_bind]. unfold new_Float32Array.
    rewrite (read_records_partial normalize_pixel f32_zero buffer IMAGE_FLAT_SIZE);
      [done | rewrite IMAGE_FLAT_SIZE_eq; lia | unfold IMAGE_HEADER_BYTES; lia
      | unfold IMAGE_HEADER_BYTES; lia |].
    rewrite IMAGE_FLAT_SIZE_eq. unfold IMAGE_HEADER_BYTES.
    intros Hnat. apply Hmod.
    replace (Z.of_nat (length buffer) - 16)%Z
      with (Z.of_nat (length buffer - 16)) by lia.
    change 784%Z with (Z.of_nat 784). rewrite <- Nat2Z.inj_mod.
    by rewrite Hnat.
Qed.

(** What [decodeImages] answers, for every buffer. *)
Lemma decodeImages_cases (buffer : Buffer) :
  (decodeImages buffer = Rejected RangeError /\
   ((Z.of_nat (length buffer) - 16) mod 784 <> 0)%Z) \/
  (exists k, length buffer = 16 + 784 * k /\
     decodeImages buffer = Resolved (map (image_of_record buffer) (seq 0 k))).
Proof.
  destruct (decide ((Z.of_nat (length buffer) - 16) mod 784 = 0)%Z) as [Hmod | Hmod].
  - right.
    assert (16 <= length buffer).
    { destruct (decide (16 <= length buffer)); [done|].
      exfalso. pose proof (Z.mod_pos_bound (Z.of_nat (length buffer) - 16) 784).
      pose proof (Z.div_mod (Z.of_nat (length buffer) - 16) 784).
      assert (((Z.of_nat (length buffer) - 16) / 784 < 0)%Z) by (apply Z.div_lt_upper_bound; lia).
      assert (((Z.of_nat (length buffer) - 16) / 784 >= -1)%Z).
      { apply Z.le_ge, Z.div_le_lower_bound; lia. }
      lia. }
    exists ((length buffer - 16) / 784).
    assert (Hnat : (length buffer - 16) mod 784 = 0).
    { apply Nat2Z.inj. rewrite Nat2Z.inj_mod.
      by replace (Z.of_nat (length buffer - 16))
        with (Z.of_nat (length buffer) - 16)%Z by lia. }
    assert (length buffer = 16 + 784 * ((length buffer - 16) / 784))
      by lia_div (length buffer - 16) 784.
    split; [done|]. by apply decodeImages_whole.
  - left. split; [by apply decodeImages_malformed | done].
Qed.

Lemma decodeLabels_whole (buffer : Buffer) (k : nat) :
  length buffer = 8 + k ->
  decodeLabels buffer = Resolved (map (label_of_record buffer) (seq 0 k)).
Proof.
  intros Hlen. unfold decodeLabels. cbv zeta.
  rewrite loadHeaderValues_inside by (done || (unfold LABEL_HEADER_BYTES; lia)).
  cbn [mbind outcome_bind]. unfold new_Int32Array.
  rewrite (read_records_whole ToInt32 0%Z buffer LABEL_RECORD_BYTE)
    with (k := k) by (unfold LABEL_RECORD_BYTE, LABEL_HEADER_BYTES; lia).
  cbn [mbind outcome_bind].
  rewrite header_declared_count by (unfold LABEL_HEADER_BYTES; lia).
  cbn [mbind outcome_bind]. f_equal. apply map_ext. intros r.
  unfold label_of_record. apply map_ext. intros b. apply ToInt32_u8.
Qed.

Lemma decodeLabels_short (buffer : Buffer) :
  length buffer < 8 -> decodeLabels buffer = Rejected RangeError.
Proof.
  intros Hlen. unfold decodeLabels. cbv zeta.
  by rewrite loadHeaderValues_short.
Qed.

Lemma record_bytes_lookup (h n : nat) (buffer : Buffer) (r i : nat) :
  i < n -> record_bytes h n buffer r !! i = buffer !! (h + n * r + i).
Proof.
  intros Hi. unfold record_bytes.
  by rewrite lookup_take_lt, lookup_drop by done.
Qed.

Lemma record_bytes_length (h n : nat) (buffer : Buffer) (r : nat) :
  h + n * r + n <= length buffer -> length (record_bytes h n buffer r) = n.
Proof.
  intros Hlen. unfold record_bytes. rewrite length_take, length_drop. lia.
Qed.

(** Every stored pixel value is the binary32 value of its quotient. *)
Lemma normalize_pixel_quotient (b : byte) :
  (Qabs (Q_of_float (normalize_pixel (u8 b)) - (u8 b # 255)) <= 1 # 2 ^ 25)%Q.
Proof.
  apply Qle_bool_iff. change (pixel_is_quotient (u8 b) = true).
  assert (Hall : forallb (fun n => pixel_is_quotient (Z.of_nat n)) (seq 0 256) = true)
    by (vm_compute; reflexivity).
  rewrite forallb_forall in Hall.
  pose proof (u8_range b).
  replace (u8 b) with (Z.of_nat (Z.to_nat (u8 b))) by lia.
  apply Hall, in_seq. lia.
Qed.

(** C1.  A buffer of [16 + 784 k] bytes decodes to exactly [k] image
    records, whatever its header declares; each record has 784 values, and
    value [i] of record [r] is the byte at offset [16 + 784 r + i] divided by
    255.0, as stored in a [Float32Array]: the binary64 quotient rounded to
    binary32, which is within [2^-25] of the exact quotient.  Byte 0 gives
    0.0 and byte 255 gives 1.0. *)
Theorem decodeImages_records (buffer : Buffer) (k : nat) :
  length buffer = 16 + 784 * k ->
  exists images,
    decodeImages buffer = Resolved images /\
    length images = k /\
    length images = (length buffer - 16) / 784 /\
    (forall r image, images !! r = Some image ->
       length image = 784 /\
       forall i, i < 784 ->
         exists b, buffer !! (16 + 784 * r + i) = Some b /\
                   image !! i = Some (normalize_pixel (u8 b))) /\
    (forall b : byte,
       normalize_pixel (u8 b)
       = Math_fround (Number_div (Number_of_Z (u8 b)) (Number_of_Z 255)) /\
       (Qabs (Q_of_float (normalize_pixel (u8 b)) - (u8 b # 255))
        <= 1 # 2 ^ 25)%Q) /\
    normalize_pixel 0 = f32_zero /\
    normalize_pixel 255 = f32_one.
Proof.
  intros Hlen. eexists. split; [by apply decodeImages_whole|].
  rewrite length_map, length_seq.
  split; [done|]. split; [lia_div (length buffer - 16) 784|].
  split; [|split; [|split; by vm_compute]];
    [|intros b; split; [done | apply normalize_pixel_quotient]].
  intros r image Hr.
  rewrite list_lookup_fmap in Hr.
  destruct (seq 0 k !! r) as [r'|] eqn:Hseq; [|done].
  apply lookup_seq in Hseq as [-> Hlt]. injection Hr as <-.
  unfold image_of_record. rewrite length_map.
  rewrite IMAGE_FLAT_SIZE_eq. unfold IMAGE_HEADER_BYTES.
  split; [apply record_bytes_length; simpl; lia|].
  intros i Hi.
  destruct (lookup_lt_is_Some_2 buffer (16 + 784 * r + i)) as [b Hb]; [simpl; lia|].
  exists b. split; [done|].
  by rewrite list_lookup_fmap, record_bytes_lookup, Hb.
Qed.

(** The theorem at the one-record file whose header declares no record. *)
Lemma decodeImages_records_witness :
  exists images,
    decodeImages image_file_one = Resolved images /\
    length images = 1 /\
    length images = (length image_file_one - 16) / 784 /\
    (forall r image, images !! r = Some image ->
       length image = 784 /\
       forall i, i < 784 ->
         exists b, image_file_one !! (16 + 784 * r + i) = Some b /\
                   image !! i = Some (normalize_pixel (u8 b))) /\
    (forall b : byte,
       normalize_pixel (u8 b)
       = Math_fround (Number_div (Number_of_Z (u8 b)) (Number_of_Z 255)) /\
       (Qabs (Q_of_float (normalize_pixel (u8 b)) - (u8 b # 255))
        <= 1 # 2 ^ 25)%Q) /\
    normalize_pixel 0 = f32_zero /\
    normalize_pixel 255 = f32_one.
Proof. apply (decodeImages_records image_file_one 1). reflexivity. Defined.

Lemma label_of_record_singleton (buffer : Buffer) (r : nat) (b : byte) :
  buffer !! (8 + r) = Some b -> label_of_record buffer r = [u8 b].
Proof.
  intros Hb. unfold label_of_record, record_bytes.
  unfold LABEL_HEADER_BYTES, LABEL_RECORD_BYTE.
  replace (8 + 1 * r) with (8 + r) by lia.
  by rewrite (drop_S _ _ _ Hb).
Qed.

Lemma label_records_singletons (buffer : Buffer) (k : nat) :
  length buffer = 8 + k ->
  map (label_of_record buffer) (seq 0 k) = map (fun b => [u8 b]) (drop 8 buffer).
Proof.
  intros Hlen. apply list_eq. intros i.
  rewrite !list_lookup_fmap, lookup_drop.
  destruct (decide (i < k)) as [Hi | Hi].
  - rewrite lookup_seq_lt by done.
    destruct (lookup_lt_is_Some_2 buffer (8 + i)) as [b Hb]; [lia|].
    rewrite Hb. simpl. f_equal. by apply label_of_record_singleton.
  - rewrite lookup_seq_ge by lia.
    by rewrite (lookup_ge_None_2 buffer) by lia.
Qed.

Lemma concat_singletons {A B : Type} (f : A -> B) (l : list A) :
  concat (map (fun a => [f a]) l) = map f l.
Proof. induction l as [|a l IH]; [done|]. simpl. by rewrite IH. Qed.

(** What [decodeLabels] answers, for every buffer. *)
Lemma decodeLabels_cases (buffer : Buffer) :
  (length buffer < 8 /\ decodeLabels buffer = Rejected RangeError) \/
  (8 <= length buffer /\
   decodeLabels buffer = Resolved (map (fun b => [u8 b]) (drop 8 buffer))).
Proof.
  destruct (decide (length buffer < 8)) as [Hshort | Hlong].
  - left. split; [done | by apply decodeLabels_short].
  - right. split; [lia|].
    rewrite (decodeLabels_whole buffer (length buffer - 8)) by lia.
    by rewrite label_records_singletons by lia.
Qed.

(** C4.  A buffer of [8 + k] bytes decodes to exactly [k] labels, label [i]
    being the byte at offset [8 + i], unchanged; each label is held in an
    [Int32Array] of one element.  The file [[0,0,8,1,0,0,0,2,3,7]] decodes
    to the labels 3 and 7. *)
Theorem decodeLabels_records (buffer : Buffer) (k : nat) :
  length buffer = 8 + k ->
  exists labels,
    decodeLabels buffer = Resolved labels /\
    length labels = k /\
    (forall i, i < k ->
       exists b, buffer !! (8 + i) = Some b /\ labels !! i = Some [u8 b]) /\
    concat labels = map u8 (drop 8 buffer) /\
    decodeLabels label_file_3_7 = Resolved [[3%Z]; [7%Z]].
Proof.
  intros Hlen.
  destruct (decodeLabels_cases buffer) as [[? _] | [_ Hdec]]; [lia|].
  eexists. split; [exact Hdec|].
  rewrite length_map, length_drop.
  split; [lia|]. split; [|split; [apply concat_singletons | by vm_compute]].
  intros i Hi.
  destruct (lookup_lt_is_Some_2 buffer (8 + i)) as [b Hb]; [lia|].
  exists b. split; [done|].
  by rewrite list_lookup_fmap, lookup_drop, Hb.
Qed.

(** The theorem at the file of labels 3 and 7. *)
Lemma decodeLabels_records_witness :
  exists labels,
    decodeLabels label_file_3_7 = Resolved labels /\
    length labels = 2 /\
    (forall i, i < 2 ->
       exists b, label_file_3_7 !! (8 + i) = Some b /\ labels !! i = Some [u8 b]) /\
    concat labels = map u8 (drop 8 label_file_3_7) /\
    decodeLabels label_file_3_7 = Resolved [[3%Z]; [7%Z]].
Proof. apply (decodeLabels_records label_file_3_7 2). reflexivity. Defined.

(** C6.  When the bytes after the header are not a whole number of
    records, the image decoder signals an error: the bounds-checked read
    that would pass the end of the buffer throws a [RangeError].  A decoder
    that answers emitted only whole records, each one read from bytes of the
    buffer: the records account for every byte after the header, and none is
    padded.  In a label file every byte after the header is a whole record,
    so the label decoder has no partial record to read. *)
Theorem partial_record_rejected (buffer : Buffer) :
  (((Z.of_nat (length buffer) - 16) mod 784 <> 0)%Z ->
   decodeImages buffer = Rejected RangeError) /\
  (forall images, decodeImages buffer = Resolved images ->
     length buffer = 16 + 784 * length images /\
     forall r image, images !! r = Some image ->
       length image = 784 /\
       image = map (fun b => normalize_pixel (u8 b))
                   (take 784 (drop (16 + 784 * r) buffer))) /\
  (((Z.of_nat (length buffer) - 8) mod 1 <> 0)%Z ->
   decodeLabels buffer = Rejected RangeError) /\
  (forall labels, decodeLabels buffer = Resolved labels ->
     length buffer = 8 + 1 * length labels /\
     forall r label, labels !! r = Some label ->
       length label = 1 /\
       label = map u8 (take 1 (drop (8 + 1 * r) buffer))).
Proof.
  split; [apply decodeImages_malformed|].
  split; [|split].
  - intros images Himages.
    destruct (decodeImages_cases buffer) as [[Hrej _] | (k & Hlen & Hres)];
      [congruence|].
    rewrite Hres in Himages. injection Himages as <-.
    rewrite length_map, length_seq. split; [done|].
    intros r image Hr. rewrite list_lookup_fmap in Hr.
    destruct (seq 0 k !! r) as [r'|] eqn:Hseq; [|done].
    apply lookup_seq in Hseq as [-> Hlt]. injection Hr as <-.
    unfold image_of_record. rewrite length_map.
    rewrite IMAGE_FLAT_SIZE_eq. unfold IMAGE_HEADER_BYTES.
    split; [apply record_bytes_length; simpl; lia | done].
  - intros Hmod. exfalso. apply Hmod. apply Z.mod_1_r.
  - intros labels Hlabels.
    destruct (decodeLabels_cases buffer) as [[_ Hrej] | [Hlen Hres]];
      [congruence|].
    rewrite Hres in Hlabels. injection Hlabels as <-.
    rewrite length_map, length_drop. split; [lia|].
    intros r label Hr. rewrite list_lookup_fmap, lookup_drop in Hr.
    destruct (buffer !! (8 + r)) as [b|] eqn:Hb; [|done].
    injection Hr as <-. split; [done|].
    replace (8 + 1 * r) with (8 + r) by lia.
    by rewrite (drop_S _ _ _ Hb).
Qed.

(** The theorem at the file with one record and one more byte. *)
Lemma partial_record_rejected_witness :
  decodeImages image_file_partial = Rejected RangeError.
Proof.
  apply (proj1 (partial_record_rejected image_file_partial)).
  vm_compute. discriminate.
Defined.

(** ** [Promise.all] and [loadData] *)

Lemma Promise_all4_rejected {A B C D : Type} (sched : nat)
    (p0 : outcome A) (p1 : outcome B) (p2 : outcome C) (p3 : outcome D) :
  (exists e, p0 = Rejected e) \/ (exists e, p1 = Rejected e) \/
  (exists e, p2 = Rejected e) \/ (exists e, p3 = Rejected e) ->
  exists e, Promise_all4 sched p0 p1 p2 p3 = Rejected e.
Proof.
  intros H. unfold Promise_all4.
  destruct p0, p1, p2, p3; eauto.
  destruct H as [[? ?] | [[? ?] | [[? ?] | [? ?]]]]; discriminate.
Qed.

Lemma Promise_all4_resolved {A B C D : Type} (sched : nat)
    (p0 : outcome A) (p1 : outcome B) (p2 : outcome C) (p3 : outcome D)
    (v : A * B * C * D) :
  Promise_all4 sched p0 p1 p2 p3 = Resolved v <->
  p0 = Resolved v.1.1.1 /\ p1 = Resolved v.1.1.2 /\
  p2 = Resolved v.1.2 /\ p3 = Resolved v.2.
Proof.
  unfold Promise_all4. destruct v as [[[v0 v1] v2] v3]. simpl.
  destruct p0, p1, p2, p3; split; try discriminate;
    try (intros (? & ? & ? & ?); discriminate).
  - intros [= -> -> -> ->]. done.
  - intros ([= ->] & [= ->] & [= ->] & [= ->]). done.
Qed.

Lemma first_settled_elem (sched : nat) (e : error) (later : list error) :
  first_settled sched e later ∈ e :: later.
Proof.
  unfold first_settled.
  destruct (decide (sched < length (e :: later))) as [Hn | Hn].
  - by apply list_elem_of_In, nth_In.
  - rewrite nth_overflow by lia. left.
Qed.

Lemma rejections_elem {A : Type} (p : outcome A) (e : error) :
  e ∈ rejections p -> p = Rejected e.
Proof.
  destruct p as [v | e']; simpl; intros H.
  - by apply elem_of_nil in H.
  - apply list_elem_of_singleton in H. by subst.
Qed.

(** The reason of the rejection is the reason of one of the promises. *)
Lemma Promise_all4_reason {A B C D : Type} (sched : nat)
    (p0 : outcome A) (p1 : outcome B) (p2 : outcome C) (p3 : outcome D)
    (e : error) :
  Promise_all4 sched p0 p1 p2 p3 = Rejected e ->
  p0 = Rejected e \/ p1 = Rejected e \/ p2 = Rejected e \/ p3 = Rejected e.
Proof.
  unfold Promise_all4. intros H.
  destruct p0 as [v0 | e0].
  - destruct p1 as [v1 | e1].
    + destruct p2 as [v2 | e2].
      * destruct p3 as [v3 | e3]; [done|]. injection H as <-. auto.
      * injection H as <-.
        pose proof (first_settled_elem sched e2 (rejections p3)) as Hin.
        apply elem_of_cons in Hin as [-> | Hin]; [auto|].
        apply rejections_elem in Hin. auto.
    + injection H as <-.
      pose proof (first_settled_elem sched e1 (rejections p2 ++ rejections p3)) as Hin.
      apply elem_of_cons in Hin as [-> | Hin]; [auto|].
      apply elem_of_app in Hin as [Hin | Hin]; apply rejections_elem in Hin; auto.
  - injection H as <-.
    pose proof (first_settled_elem sched e0
                  (rejections p1 ++ rejections p2 ++ rejections p3)) as Hin.
    apply elem_of_cons in Hin as [-> | Hin]; [auto|].
    apply elem_of_app in Hin as [Hin | Hin];
      [|apply elem_of_app in Hin as [Hin | Hin]];
      apply rejections_elem in Hin; auto.
Qed.

Section LoadData.

Variable fetchResource : string -> bool -> outcome Buffer.

(** The four loads started by [loadData]. *)
Local Abbreviation train_images := (loadImages fetchResource TRAIN_IMAGES_FILE).
Local Abbreviation train_labels := (loadLabels fetchResource TRAIN_LABELS_FILE).
Local Abbreviation test_images := (loadImages fetchResource TEST_IMAGES_FILE).
Local Abbreviation test_labels := (loadLabels fetchResource TEST_LABELS_FILE).

Lemma loadData_rejected (sched : nat) (this : MnistDataset) (e : error) :
  Promise_all4 sched train_images train_labels test_images test_labels
  = Rejected e ->
  loadData fetchResource sched this = (Rejected e, this).
Proof. intros H. unfold loadData, await, lift, mbind, method_bind. by rewrite H. Qed.

Lemma loadData_resolved (sched : nat) (this : MnistDataset)
    (d0 d2 : list Float32Array) (d1 d3 : list Int32Array) :
  train_images = Resolved d0 -> train_labels = Resolved d1 ->
  test_images = Resolved d2 -> test_labels = Resolved d3 ->
  loadData fetchResource sched this
  = (Resolved tt,
     mkMnistDataset (d0, d1, d2, d3) (length d0) (length d2)
                    (trainBatchIndex this) (testBatchIndex this)).
Proof.
  intros H0 H1 H2 H3.
  unfold loadData, await, lift, mbind, method_bind.
  by rewrite H0, H1, H2, H3.
Qed.

(** C3.  When one of the four loads fails, at the fetch or at the decode,
    [loadData] rejects, with the reason of one of the failed loads, and the
    state of the object is the state before the call, field by field.  The state changes only when the four loads
    succeeded, and then the four collections and the two sizes are those of
    the new data: the state after a call is never a mixture. *)
Theorem loadData_all_or_nothing (sched : nat) (this : MnistDataset) :
  ((exists e, train_images = Rejected e) \/ (exists e, train_labels = Rejected e) \/
   (exists e, test_images = Rejected e) \/ (exists e, test_labels = Rejected e) ->
   exists e,
     loadData fetchResource sched this = (Rejected e, this) /\
     (train_images = Rejected e \/ train_labels = Rejected e \/
      test_images = Rejected e \/ test_labels = Rejected e)) /\
  (forall result this', loadData fetchResource sched this = (result, this') ->
     this' = this \/
     exists d0 d1 d2 d3,
       train_images = Resolved d0 /\ train_labels = Resolved d1 /\
       test_images = Resolved d2 /\ test_labels = Resolved d3 /\
       result = Resolved tt /\
       dataset this' = (d0, d1, d2, d3) /\
       trainSize this' = length d0 /\ testSize this' = length d2).
Proof.
  split.
  - intros Hfail.
    destruct (Promise_all4_rejected sched _ _ _ _ Hfail) as [e He].
    exists e. split; [by apply loadData_rejected|].
    by apply (Promise_all4_reason sched).
  - intros result this' Hcall.
    destruct (Promise_all4 sched train_images train_labels test_images test_labels)
      as [[[[d0 d1] d2] d3] | e] eqn:Hall.
    + apply Promise_all4_resolved in Hall as (H0 & H1 & H2 & H3). simpl in *.
      rewrite (loadData_resolved sched this d0 d2 d1 d3) in Hcall by done.
      injection Hcall as <- <-. right. exists d0, d1, d2, d3. done.
    + rewrite (loadData_rejected sched this e Hall) in Hcall.
      injection Hcall as _ <-. by left.
Qed.

End LoadData.

(** The theorem at a loaded state and a collaborator whose fetch of the
    test labels fails. *)
Lemma loadData_all_or_nothing_witness :
  exists e,
    loadData fetch_failing 0 loaded_example = (Rejected e, loaded_example) /\
    (loadImages fetch_failing TRAIN_IMAGES_FILE = Rejected e \/
     loadLabels fetch_failing TRAIN_LABELS_FILE = Rejected e \/
     loadImages fetch_failing TEST_IMAGES_FILE = Rejected e \/
     loadLabels fetch_failing TEST_LABELS_FILE = Rejected e).
Proof.
  apply (proj1 (loadData_all_or_nothing fetch_failing 0 loaded_example)).
  right. right. right. exists FetchError. vm_compute. reflexivity.
Defined.

(** C7, as the code has it.  [loadData] compares no counts: when the four
    loads succeed it commits, whatever the numbers of images and labels;
    the four collections are the decoded results, and [trainSize] and
    [testSize] are the numbers of decoded image records of the two
    splits. *)
Theorem loadData_commits_without_count_check
    (fetchResource : string -> bool -> outcome Buffer) (sched : nat)
    (this : MnistDataset) (d0 d2 : list Float32Array) (d1 d3 : list Int32Array) :
  loadImages fetchResource TRAIN_IMAGES_FILE = Resolved d0 ->
  loadLabels fetchResource TRAIN_LABELS_FILE = Resolved d1 ->
  loadImages fetchResource TEST_IMAGES_FILE = Resolved d2 ->
  loadLabels fetchResource TEST_LABELS_FILE = Resolved d3 ->
  exists this',
    loadData fetchResource sched this = (Resolved tt, this') /\
    dataset this' = (d0, d1, d2, d3) /\
    trainSize this' = length d0 /\
    testSize this' = length d2 /\
    trainBatchIndex this' = trainBatchIndex this /\
    testBatchIndex this' = testBatchIndex this.
Proof.
  intros H0 H1 H2 H3. eexists.
  split; [by apply loadData_resolved|]. done.
Qed.

(** The theorem at the files with no test image and two test labels. *)
Lemma loadData_commits_without_count_check_witness :
  exists this',
    loadData fetch_mismatch 0 new_MnistDataset = (Resolved tt, this') /\
    dataset this'
    = ([image_of_record image_file_one 0], [[10%Z]], [], [[3%Z]; [7%Z]]) /\
    trainSize this' = 1 /\
    testSize this' = 0 /\
    trainBatchIndex this' = 0 /\
    testBatchIndex this' = 0.
Proof.
  apply (loadData_commits_without_count_check fetch_mismatch 0 new_MnistDataset
           [image_of_record image_file_one 0] [] [[10%Z]] [[3%Z]; [7%Z]]);
    vm_compute; reflexivity.
Defined.

Lemma loadData_mismatch :
  loadData fetch_mismatch 0 new_MnistDataset
  = (Resolved tt,
     mkMnistDataset
       ([image_of_record image_file_one 0], [[10%Z]], [], [[3%Z]; [7%Z]])
       1 0 0 0).
Proof. vm_compute. reflexivity. Qed.

(** C7, as stated, fails: the files with no test image and two test labels
    are committed. *)
Lemma loadData_count_check_counterexample :
  ~ (forall (fetchResource : string -> bool -> outcome Buffer) (sched : nat)
       (this this' : MnistDataset),
       loadData fetchResource sched this = (Resolved tt, this') ->
       length (split_images this' true) = length (split_labels this' true) /\
       length (split_images this' false) = length (split_labels this' false)).
Proof.
  intros Hevery.
  destruct (Hevery _ _ _ _ loadData_mismatch) as [_ Htest].
  discriminate Htest.
Qed.

(** ** Methods that only read [this] *)

Lemma method_while_readonly {S : Type} (test : S -> bool) (body : S -> Method S) :
  (forall s this, (body s this).2 = this) ->
  forall fuel s this,
    method_while fuel test body s this
    = (while_loop fuel test (fun s => (body s this).1) s, this).
Proof.
  intros Hbody fuel. induction fuel as [|fuel IH]; intros s this; simpl.
  - by destruct (test s).
  - destruct (test s); [|done].
    unfold mbind at 1, method_bind.
    pose proof (Hbody s this) as Hthis.
    destruct (body s this) as [[s' | e] this']; simpl in *; subst this'; [|done].
    apply IH.
Qed.

(** ** Stacking records into one typed array *)

Lemma typed_set_fill {A : Type} (z : A) (prefix source : list A) (n offset : nat) :
  offset = length prefix -> length source <= n ->
  typed_set (prefix ++ replicate n z) source offset
  = Resolved ((prefix ++ source) ++ replicate (n - length source) z).
Proof.
  intros -> Hn. unfold typed_set.
  rewrite decide_True by (rewrite length_app, length_replicate; lia).
  rewrite take_app_length, drop_app_add, drop_replicate.
  by rewrite <- app_assoc.
Qed.

Lemma concat_take_length {A : Type} (w : nat) (records : list (list A)) (i : nat) :
  Forall (fun r => length r = w) records -> i <= length records ->
  length (concat (take i records)) = i * w.
Proof.
  intros Hw. revert i. induction Hw as [|r records Hr _ IH]; intros i Hi.
  - simpl in Hi. by replace i with 0 by lia.
  - destruct i as [|i]; [done|]. simpl in *.
    rewrite length_app, IH by lia. lia.
Qed.

Lemma concat_take_S {A : Type} (records : list (list A)) (i : nat) (r : list A) :
  records !! i = Some r ->
  concat (take (S i) records) = concat (take i records) ++ r.
Proof.
  intros Hr. rewrite (take_S_r _ _ _ Hr), concat_app. simpl.
  by rewrite app_nil_r.
Qed.

Lemma sizeFromShape_images (size : nat) :
  sizeFromShape [size; IMAGE_HEIGHT; IMAGE_WIDTH; 1] = size * 784.
Proof. unfold sizeFromShape, IMAGE_HEIGHT, IMAGE_WIDTH. simpl fold_right. lia. Qed.

Lemma sizeFromShape_labels (size : nat) : sizeFromShape [size; 1] = size.
Proof. unfold sizeFromShape. simpl. lia. Qed.

(** ** [getData_] *)

(** Unfolding of the monadic operations of a method, at a state. *)
Ltac method_step :=
  unfold mbind, method_bind, mret, method_ret, get_dataset, lift;
  cbn beta iota.

Section GetData.

Variable this : MnistDataset.
Variable isTrainingData : bool.

Local Abbreviation imagesIndex := (if isTrainingData then 0 else 2).
Local Abbreviation labelsIndex := (if isTrainingData then 1 else 3).
Local Abbreviation size := (length (split_images this isTrainingData)).

(** The loop of [getData_], as written there. *)
Local Abbreviation stack_loop :=
  (method_while size
     (fun '(i, _, _, _, _) => bool_decide (i < size))
     (fun '(i, images, labels, imageOffset, labelOffset) =>
        d ← get_dataset;
        images ← lift (typed_set_from images
                         (dataset_images d imagesIndex !! i) imageOffset);
        d ← get_dataset;
        labels ← lift (typed_set_from labels
                         (dataset_labels d labelsIndex !! i) labelOffset);
        mret (S i, images, labels,
              imageOffset + IMAGE_FLAT_SIZE, labelOffset + 1))
     (0, new_Float32Array (sizeFromShape [size; IMAGE_HEIGHT; IMAGE_WIDTH; 1]),
      new_Int32Array (sizeFromShape [size; 1]), 0, 0)).

Lemma getData__unfold :
  getData_ isTrainingData this
  = match stack_loop this with
    | (Resolved (_, images, labels, _, _), this1) =>
        match tensor4d images [size; IMAGE_HEIGHT; IMAGE_WIDTH; 1] with
        | Resolved xs =>
            match oneHot (tensor1d labels) LABEL_FLAT_SIZE with
            | Resolved ys => (Resolved (mkTrainDataSet xs (toFloat ys)), this1)
            | Rejected e => (Rejected e, this1)
            end
        | Rejected e => (Rejected e, this1)
        end
    | (Rejected e, this1) => (Rejected e, this1)
    end.
Proof.
  unfold getData_, split_images.
  destruct isTrainingData; method_step;
    (destruct (method_while _ _ _ _ _)
       as [[[[[[i images] labels] imageOffset] labelOffset] | e] this1];
     reflexivity).
Qed.

(** The loop leaves [this] as it is: its body only reads it. *)
Lemma stack_loop_readonly : (stack_loop this).2 = this.
Proof.
  rewrite method_while_readonly; [done|].
  intros [[[[i images] labels] imageOffset] labelOffset] this0. method_step.
  destruct (typed_set_from images _ _); [|done].
  by destruct (typed_set_from labels _ _).
Qed.

Lemma getData__readonly : (getData_ isTrainingData this).2 = this.
Proof.
  rewrite getData__unfold. pose proof stack_loop_readonly as Hloop.
  destruct stack_loop
    as [[[[[[i images] labels] imageOffset] labelOffset] | e] this1];
    simpl in Hloop; subst this1; [|done].
  destruct (tensor4d images _); [|done].
  by destruct (oneHot _ _).
Qed.

(** The loop stacks the records of the split, when every image record has
    784 values and there is a label record of one value for every image. *)
Lemma stack_loop_stacked :
  Forall (fun r => length r = 784) (split_images this isTrainingData) ->
  Forall (fun l => length l = 1) (split_labels this isTrainingData) ->
  size <= length (split_labels this isTrainingData) ->
  stack_loop this
  = (Resolved (size, concat (split_images this isTrainingData),
               concat (take size (split_labels this isTrainingData)),
               size * 784, size), this).
Proof.
  intros Himages Hlabels Hsize.
  rewrite method_while_readonly; cycle 1.
  { intros [[[[i images] labels] imageOffset] labelOffset] this0. method_step.
    destruct (typed_set_from images _ _); [|done].
    by destruct (typed_set_from labels _ _). }
  f_equal.
  rewrite sizeFromShape_images, sizeFromShape_labels.
  unfold new_Float32Array, new_Int32Array.
  fold (split_images this isTrainingData). fold (split_labels this isTrainingData).
  set (imgs := split_images this isTrainingData) in *.
  set (lbls := split_labels this isTrainingData) in *.
  edestruct (while_loop_ends
    (fun '(i, images, labels, imageOffset, labelOffset) =>
       i <= length imgs /\ imageOffset = i * 784 /\ labelOffset = i /\
       images = concat (take i imgs)
                ++ replicate ((length imgs - i) * 784) f32_zero /\
       labels = concat (take i lbls) ++ replicate (length imgs - i) 0%Z)
    (fun '(i, _, _, _, _) => length imgs - i))
    as ([[[[i images] labels] imageOffset] labelOffset]
        & -> & (Hi & -> & -> & -> & ->) & Hexit);
    [| | simpl; lia |].
  - intros [[[[i images] labels] imageOffset] labelOffset]
      (Hi & -> & -> & -> & ->) Htest.
    apply bool_decide_eq_true in Htest. method_step.
    destruct (lookup_lt_is_Some_2 imgs i) as [r Hr]; [lia|].
    destruct (lookup_lt_is_Some_2 lbls i) as [l Hl]; [lia|].
    pose proof (Forall_lookup_1 _ _ _ _ Himages Hr) as Hrlen.
    pose proof (Forall_lookup_1 _ _ _ _ Hlabels Hl) as Hllen.
    simpl in Hrlen, Hllen.
    change (dataset_images (dataset this) imagesIndex) with imgs.
    change (dataset_labels (dataset this) labelsIndex) with lbls.
    rewrite Hr. unfold typed_set_from at 1.
    rewrite typed_set_fill;
      [| by rewrite (concat_take_length 784) by (done || lia) | lia].
    rewrite Hl. unfold typed_set_from.
    rewrite typed_set_fill;
      [| by rewrite (concat_take_length 1), Nat.mul_1_r
           by (done || lia) | lia].
    cbn beta iota. eexists; split; [done|]. cbn beta iota.
    split; [|lia].
    rewrite IMAGE_FLAT_SIZE_eq, Hrlen, Hllen.
    rewrite (concat_take_S _ _ _ Hr), (concat_take_S _ _ _ Hl).
    split; [lia|]. split; [lia|]. split; [lia|].
    split; f_equal; f_equal; lia.
  - cbn beta iota. split; [lia|]. split; [done|]. split; [done|].
    rewrite Nat.sub_0_r. done.
  - apply bool_decide_eq_false in Hexit.
    assert (i = length imgs) as -> by lia.
    rewrite Nat.sub_diag. simpl replicate. rewrite !app_nil_r.
    by rewrite firstn_all.
Qed.



Lemma getData__stacked :
  Forall (fun r => length r = 784) (split_images this isTrainingData) ->
  Forall (fun l => length l = 1) (split_labels this isTrainingData) ->
  size = length (split_labels this isTrainingData) ->
  getData_ isTrainingData this
  = (Resolved
       (mkTrainDataSet
          (mkTensor (concat (split_images this isTrainingData))
                    [size; IMAGE_HEIGHT; IMAGE_WIDTH; 1])
          (mkTensor (map f32_of_Z
                       (concat (map (oneHot_row LABEL_FLAT_SIZE)
                                    (concat (split_labels this isTrainingData)))))
                    [size; LABEL_FLAT_SIZE])),
     this).
Proof.
  intros Himages Hlabels Hsize.
  rewrite getData__unfold, stack_loop_stacked by (done || lia).
  replace (take size (split_labels this isTrainingData))
    with (split_labels this isTrainingData)
    by (rewrite Hsize; symmetry; apply firstn_all).
  unfold tensor4d. rewrite decide_True; cycle 1.
  { rewrite sizeFromShape_images.
    rewrite <- (firstn_all (split_images this isTrainingData)) at 1.
    by apply concat_take_length. }
  unfold oneHot. rewrite decide_False by (unfold LABEL_FLAT_SIZE; lia).
  unfold toFloat, tensor1d. cbn [values shape app].
  do 3 f_equal. f_equal.
  rewrite <- (firstn_all (split_labels this isTrainingData)).
  rewrite (concat_take_length 1) by (done || lia).
  by rewrite Nat.mul_1_r, <- Hsize.
Qed.

End GetData.

(** ** Rows of fixed width *)

Lemma concat_fixed_lookup {A : Type} (w : nat) (rows : list (list A))
    (i c : nat) (row : list A) :
  Forall (fun r => length r = w) rows -> rows !! i = Some row -> c < w ->
  concat rows !! (i * w + c) = row !! c.
Proof.
  intros Hw. revert i. induction Hw as [|r rows Hr _ IH]; intros i Hi Hc; [done|].
  destruct i as [|i]; simpl in *.
  - injection Hi as ->. by rewrite lookup_app_l by lia.
  - rewrite lookup_app_r by lia.
    replace (w + i * w + c - length r) with (i * w + c) by lia.
    by apply IH.
Qed.

Lemma concat_fixed_row {A : Type} (w : nat) (rows : list (list A))
    (i : nat) (row : list A) :
  Forall (fun r => length r = w) rows -> rows !! i = Some row ->
  take w (drop (i * w) (concat rows)) = row.
Proof.
  intros Hw. revert i. induction Hw as [|r rows Hr _ IH]; intros i Hi; [done|].
  destruct i as [|i]; simpl in *.
  - injection Hi as ->. by rewrite drop_0, take_app_length' by done.
  - rewrite drop_app_add' by done. by apply IH.
Qed.

(** ** One-hot rows *)

Lemma oneHot_row_length (depth : nat) (index : Z) :
  length (oneHot_row depth index) = depth.
Proof. unfold oneHot_row. by rewrite length_map, length_seq. Qed.

Lemma oneHot_row_lookup (depth : nat) (index : Z) (c : nat) :
  c < depth ->
  oneHot_row depth index !! c
  = Some (if decide (index = Z.of_nat c) then 1%Z else 0%Z).
Proof.
  intros Hc. unfold oneHot_row.
  by rewrite list_lookup_fmap, lookup_seq_lt.
Qed.

(** The row of an index inside the depth sums to 1.0. *)
Lemma oneHot_row_sum (index : Z) :
  (0 <= index < 10)%Z ->
  f32_sum (map f32_of_Z (oneHot_row 10 index)) = f32_one.
Proof.
  intros Hindex.
  replace index with (Z.of_nat (Z.to_nat index)) by lia.
  assert (Z.to_nat index < 10) as Hlt by lia.
  revert Hlt. generalize (Z.to_nat index) as n. intros n Hn.
  do 10 (destruct n as [|n]; [by vm_compute|]). lia.
Qed.

(** The row of an index outside the depth holds no 1. *)
Lemma oneHot_row_outside (index : Z) :
  (index < 0 \/ 10 <= index)%Z ->
  map f32_of_Z (oneHot_row 10 index) = replicate 10 f32_zero.
Proof.
  intros Hindex. unfold oneHot_row. simpl.
  by rewrite !decide_False by lia.
Qed.

(** ** Loaded states *)

Lemma decodeImages_resolved (buffer : Buffer) (images : list Float32Array) :
  decodeImages buffer = Resolved images ->
  Forall (fun r => length r = 784) images.
Proof.
  intros Himages.
  destruct (decodeImages_cases buffer) as [[Hrej _] | (k & Hlen & Hres)];
    [congruence|].
  rewrite Hres in Himages. injection Himages as <-.
  apply Forall_lookup_2. intros r image Hr.
  rewrite list_lookup_fmap in Hr.
  destruct (seq 0 k !! r) as [r'|] eqn:Hseq; [|done].
  apply lookup_seq in Hseq as [-> Hlt]. injection Hr as <-.
  unfold image_of_record. rewrite length_map.
  rewrite IMAGE_FLAT_SIZE_eq. unfold IMAGE_HEADER_BYTES.
  apply record_bytes_length. simpl. lia.
Qed.

Lemma decodeLabels_resolved (buffer : Buffer) (labels : list Int32Array) :
  decodeLabels buffer = Resolved labels ->
  Forall (fun l => exists b, l = [u8 b]) labels.
Proof.
  intros Hlabels.
  destruct (decodeLabels_cases buffer) as [[_ Hrej] | [_ Hres]]; [congruence|].
  rewrite Hres in Hlabels. injection Hlabels as <-.
  apply Forall_lookup_2. intros r label Hr.
  rewrite list_lookup_fmap in Hr.
  destruct (drop 8 buffer !! r) as [b|]; [|done].
  injection Hr as <-. by exists b.
Qed.

Lemma loadImages_resolved (fetchResource : string -> bool -> outcome Buffer)
    (url : string) (images : list Float32Array) :
  loadImages fetchResource url = Resolved images ->
  Forall (fun r => length r = 784) images.
Proof.
  unfold loadImages. destruct (fetchResource url true) as [buffer|]; [|done].
  apply decodeImages_resolved.
Qed.

Lemma loadLabels_resolved (fetchResource : string -> bool -> outcome Buffer)
    (url : string) (labels : list Int32Array) :
  loadLabels fetchResource url = Resolved labels ->
  Forall (fun l => exists b, l = [u8 b]) labels.
Proof.
  unfold loadLabels. destruct (fetchResource url true) as [buffer|]; [|done].
  apply decodeLabels_resolved.
Qed.

(** In a loaded state every image record has 784 values and every label
    record is one byte value. *)
Lemma Loaded_records (this : MnistDataset) (isTrainingData : bool) :
  Loaded this ->
  Forall (fun r => length r = 784) (split_images this isTrainingData) /\
  Forall (fun l => exists b, l = [u8 b]) (split_labels this isTrainingData).
Proof.
  intros (fetchResource & sched & this0 & Hload).
  destruct (Promise_all4 sched
              (loadImages fetchResource TRAIN_IMAGES_FILE)
              (loadLabels fetchResource TRAIN_LABELS_FILE)
              (loadImages fetchResource TEST_IMAGES_FILE)
              (loadLabels fetchResource TEST_LABELS_FILE))
    as [[[[d0 d1] d2] d3] | e] eqn:Hall.
  - apply Promise_all4_resolved in Hall as (H0 & H1 & H2 & H3). simpl in *.
    rewrite (loadData_resolved fetchResource sched this0 d0 d2 d1 d3) in Hload
      by done.
    injection Hload as <-. unfold split_images, split_labels. simpl.
    destruct isTrainingData;
      eauto using loadImages_resolved, loadLabels_resolved.
  - by rewrite (loadData_rejected fetchResource sched this0 e Hall) in Hload.
Qed.

Lemma singletons_length (labels : list Int32Array) :
  Forall (fun l => exists b, l = [u8 b]) labels ->
  Forall (fun l => length l = 1) labels.
Proof.
  intros H. eapply Forall_impl; [exact H|]. by intros l [b ->].
Qed.

Lemma singletons_concat_lookup (labels : list Int32Array) (i : nat) (v : Z) :
  Forall (fun l => length l = 1) labels ->
  labels !! i = Some [v] -> concat labels !! i = Some v.
Proof.
  intros Hone Hi.
  pose proof (concat_fixed_lookup 1 labels i 0 [v] Hone Hi) as H.
  rewrite Nat.mul_1_r, Nat.add_0_r in H. apply H. lia.
Qed.

Lemma map_concat_map {A B C : Type} (f : B -> C) (g : A -> list B) (l : list A) :
  map f (concat (map g l)) = concat (map (fun a => map f (g a)) l).
Proof.
  induction l as [|a l IH]; [done|]. simpl. by rewrite map_app, IH.
Qed.

(** What [getData_] answers in a loaded state with as many labels as
    images in the split. *)
Lemma getData__loaded (this : MnistDataset) (isTrainingData : bool) (k : nat) :
  Loaded this ->
  length (split_images this isTrainingData) = k ->
  length (split_labels this isTrainingData) = k ->
  getData_ isTrainingData this
  = (Resolved
       (mkTrainDataSet
          (mkTensor (concat (split_images this isTrainingData)) [k; 28; 28; 1])
          (mkTensor (concat (map (fun index => map f32_of_Z (oneHot_row 10 index))
                                 (concat (split_labels this isTrainingData))))
                    [k; 10])),
     this).
Proof.
  intros Hloaded Himages Hlabels.
  destruct (Loaded_records this isTrainingData Hloaded) as [Hw Hone].
  apply singletons_length in Hone.
  rewrite getData__stacked by (done || congruence).
  rewrite Himages. unfold IMAGE_HEIGHT, IMAGE_WIDTH, LABEL_FLAT_SIZE.
  do 4 f_equal. apply map_concat_map.
Qed.

(** ** The one-hot rows of a batch *)

Section Rows.

Variable indices : list Z.

Local Abbreviation row_of := (fun index => map f32_of_Z (oneHot_row 10 index)).
Local Abbreviation rows := (map row_of indices).

Lemma rows_width : Forall (fun r : list spec_float => length r = 10) rows.
Proof.
  apply Forall_lookup_2. intros i r Hr. rewrite list_lookup_fmap in Hr.
  destruct (indices !! i) as [index|]; [|done].
  by injection Hr as <-.
Qed.

Lemma rows_length : length (concat rows) = length indices * 10.
Proof.
  rewrite <- (firstn_all rows), (concat_take_length 10);
    [by rewrite length_map | apply rows_width | done].
Qed.

Lemma rows_row (i : nat) (v : Z) :
  indices !! i = Some v ->
  take 10 (drop (i * 10) (concat rows)) = row_of v.
Proof.
  intros Hi. apply concat_fixed_row; [apply rows_width|].
  by rewrite list_lookup_fmap, Hi.
Qed.

Lemma rows_lookup (i c : nat) (v : Z) :
  indices !! i = Some v -> c < 10 ->
  concat rows !! (i * 10 + c)
  = Some (if decide (v = Z.of_nat c) then f32_one else f32_zero).
Proof.
  intros Hi Hc.
  rewrite (concat_fixed_lookup 10 rows i c (row_of v));
    [| apply rows_width | by rewrite list_lookup_fmap, Hi | done].
  rewrite list_lookup_fmap, oneHot_row_lookup by done.
  by destruct (decide (v = Z.of_nat c)).
Qed.

End Rows.

(** ** The batches of [getData_] *)

(** C2, as the code has it.  In a loaded state whose split holds [k] image
    records and [k] labels, all of them below 10, [getData_] returns an
    image tensor of shape [[k, 28, 28, 1]] over a buffer of [k * 784] values
    in which the 784 values from offset [i * 784] are image record [i], and
    a label tensor of shape [[k, 10]] over [k * 10] values in which row [i]
    holds 1.0 at the index of label [i] and 0.0 at the nine other positions,
    so that the row sums to 1.0.  The labels 3 and 7 of the example files
    give the rows [[0,0,0,1,0,0,0,0,0,0]] and [[0,0,0,0,0,0,0,1,0,0]]. *)
Theorem getData__batch (this : MnistDataset) (isTrainingData : bool) (k : nat) :
  Loaded this ->
  length (split_images this isTrainingData) = k ->
  length (split_labels this isTrainingData) = k ->
  (forall i v, split_labels this isTrainingData !! i = Some [v] -> (v < 10)%Z) ->
  (exists result,
     getData_ isTrainingData this = (Resolved result, this) /\
     shape (xs result) = [k; 28; 28; 1] /\
     length (values (xs result)) = k * 784 /\
     (forall i image, split_images this isTrainingData !! i = Some image ->
        take 784 (drop (i * 784) (values (xs result))) = image) /\
     shape (ys result) = [k; 10] /\
     length (values (ys result)) = k * 10 /\
     (forall i, i < k ->
        exists v, split_labels this isTrainingData !! i = Some [v] /\
          (0 <= v < 10)%Z /\
          (forall c, c < 10 ->
             values (ys result) !! (i * 10 + c)
             = Some (if decide (v = Z.of_nat c) then f32_one else f32_zero)) /\
          f32_sum (tensor_row 10 (ys result) i) = f32_one)) /\
  (exists result,
     getData_ true loaded_example = (Resolved result, loaded_example) /\
     split_labels loaded_example true = [[3%Z]; [7%Z]] /\
     ys result
     = mkTensor (map f32_of_Z [0; 0; 0; 1; 0; 0; 0; 0; 0; 0;
                               0; 0; 0; 0; 0; 0; 0; 1; 0; 0]%Z)
                [2; 10]).
Proof.
  intros Hloaded Himages Hlabels Hrange.
  split; [|eexists; split; [vm_compute; reflexivity | by vm_compute]].
  destruct (Loaded_records this isTrainingData Hloaded) as [Hw Hbytes].
  pose proof (singletons_length _ Hbytes) as Hone.
  eexists. split; [by apply getData__loaded|]. cbn [xs ys values shape].
  split; [done|]. split.
  { rewrite <- (firstn_all (split_images this isTrainingData)).
    rewrite (concat_take_length 784) by done. by rewrite Himages. }
  split; [intros i image Hi; by apply concat_fixed_row|].
  split; [done|]. split.
  { rewrite rows_length.
    rewrite <- (firstn_all (split_labels this isTrainingData)).
    rewrite (concat_take_length 1) by done. lia. }
  intros i Hi.
  destruct (lookup_lt_is_Some_2 (split_labels this isTrainingData) i)
    as [l Hl]; [lia|].
  destruct (Forall_lookup_1 _ _ _ _ Hbytes Hl) as [b ->].
  pose proof (u8_range b). pose proof (Hrange i _ Hl).
  pose proof (singletons_concat_lookup _ _ _ Hone Hl) as Hv.
  exists (u8 b). split; [done|]. split; [lia|]. split.
  - intros c Hc. by apply rows_lookup.
  - unfold tensor_row. cbn [values].
    rewrite (rows_row _ i (u8 b)) by done.
    apply oneHot_row_sum. lia.
Qed.

(** The theorem at the training split of the example files. *)
Lemma getData__batch_witness :
  exists result,
    getData_ true loaded_example = (Resolved result, loaded_example) /\
    shape (xs result) = [2; 28; 28; 1] /\
    length (values (xs result)) = 2 * 784 /\
    (forall i image, split_images loaded_example true !! i = Some image ->
       take 784 (drop (i * 784) (values (xs result))) = image) /\
    shape (ys result) = [2; 10] /\
    length (values (ys result)) = 2 * 10 /\
    (forall i, i < 2 ->
       exists v, split_labels loaded_example true !! i = Some [v] /\
         (0 <= v < 10)%Z /\
         (forall c, c < 10 ->
            values (ys result) !! (i * 10 + c)
            = Some (if decide (v = Z.of_nat c) then f32_one else f32_zero)) /\
         f32_sum (tensor_row 10 (ys result) i) = f32_one).
Proof.
  refine (proj1 (getData__batch loaded_example true 2 _ _ _ _)).
  - exists fetch_example, 0, new_MnistDataset. vm_compute. reflexivity.
  - vm_compute. reflexivity.
  - vm_compute. reflexivity.
  - intros i v. vm_compute (split_labels loaded_example true).
    destruct i as [|[|i]]; simpl; intros [= <-]; lia.
Defined.

Lemma Loaded_example : Loaded loaded_example.
Proof. exists fetch_example, 0, new_MnistDataset. vm_compute. reflexivity. Qed.

(** The test split of the example files: one image, and the label 10. *)
Lemma getData__example_test :
  getData_ false loaded_example
  = (Resolved
       (mkTrainDataSet
          (mkTensor (image_of_record image_file_one 0) [1; 28; 28; 1])
          (mkTensor (replicate 10 f32_zero) [1; 10])),
     loaded_example).
Proof. vm_compute. reflexivity. Qed.

Lemma split_example_test :
  split_images loaded_example false = [image_of_record image_file_one 0] /\
  split_labels loaded_example false = [[10%Z]].
Proof. split; vm_compute; reflexivity. Qed.

(** C2, as stated, fails: the label 10 of the test split of the example
    files gives a row without 1.0, whose sum is 0.0. *)
Lemma getData__batch_counterexample :
  ~ (forall (this : MnistDataset) (isTrainingData : bool) (k : nat),
       Loaded this ->
       length (split_images this isTrainingData) = k ->
       length (split_labels this isTrainingData) = k ->
       exists result,
         getData_ isTrainingData this = (Resolved result, this) /\
         forall i, i < k -> f32_sum (tensor_row 10 (ys result) i) = f32_one).
Proof.
  intros Hevery.
  destruct split_example_test as [Himages Hlabels].
  destruct (Hevery loaded_example false 1 Loaded_example) as (result & Hres & Hrows).
  - by rewrite Himages.
  - by rewrite Hlabels.
  - rewrite getData__example_test in Hres.
    apply (f_equal (fun p => match p.1 with
                             | Resolved r => ys r
                             | Rejected _ => mkTensor [] []
                             end)) in Hres.
    cbn [fst ys] in Hres.
    specialize (Hrows 0 ltac:(lia)). rewrite <- Hres in Hrows.
    vm_compute in Hrows. discriminate.
Qed.

(** C8, as the code has it.  [getData_] checks no label against the number
    of classes: in a loaded state whose split holds [k] image records and
    [k] labels the call returns normally whatever the labels are, and the
    row of a label of 10 or more holds 0.0 at its ten positions: no error
    is signalled, and no position is given the 1.0 in place of the one that
    is out of range. *)
Theorem getData__label_not_checked
    (this : MnistDataset) (isTrainingData : bool) (k : nat) :
  Loaded this ->
  length (split_images this isTrainingData) = k ->
  length (split_labels this isTrainingData) = k ->
  exists result,
    getData_ isTrainingData this = (Resolved result, this) /\
    shape (ys result) = [k; 10] /\
    forall i v, split_labels this isTrainingData !! i = Some [v] ->
      (10 <= v)%Z ->
      tensor_row 10 (ys result) i = replicate 10 f32_zero /\
      f32_sum (tensor_row 10 (ys result) i) = f32_zero.
Proof.
  intros Hloaded Himages Hlabels.
  destruct (Loaded_records this isTrainingData Hloaded) as [Hw Hbytes].
  pose proof (singletons_length _ Hbytes) as Hone.
  eexists. split; [by apply getData__loaded|]. cbn [ys values shape].
  split; [done|]. intros i v Hi Hv.
  pose proof (singletons_concat_lookup _ _ _ Hone Hi) as Hlookup.
  unfold tensor_row. cbn [values].
  rewrite (rows_row _ i v) by done.
  rewrite oneHot_row_outside by lia. split; [done | by vm_compute].
Qed.

(** The theorem at the test split of the example files. *)
Lemma getData__label_not_checked_witness :
  exists result,
    getData_ false loaded_example = (Resolved result, loaded_example) /\
    shape (ys result) = [1; 10] /\
    forall i v, split_labels loaded_example false !! i = Some [v] ->
      (10 <= v)%Z ->
      tensor_row 10 (ys result) i = replicate 10 f32_zero /\
      f32_sum (tensor_row 10 (ys result) i) = f32_zero.
Proof.
  refine (getData__label_not_checked loaded_example false 1 _ _ _).
  - exists fetch_example, 0, new_MnistDataset. vm_compute. reflexivity.
  - vm_compute. reflexivity.
  - vm_compute. reflexivity.
Defined.

(** C8, as stated, fails: the test split of the example files holds the
    label 10, and the call returns a batch. *)
Lemma getData__range_check_counterexample :
  ~ (forall (this : MnistDataset) (isTrainingData : bool),
       Loaded this ->
       (exists i v, split_labels this isTrainingData !! i = Some [v] /\
                    (10 <= v)%Z) ->
       exists e, (getData_ isTrainingData this).1 = Rejected e).
Proof.
  intros Hevery.
  destruct (Hevery loaded_example false Loaded_example) as [e He].
  - exists 0, 10%Z. split; [|lia].
    by rewrite (proj2 split_example_test).
  - rewrite getData__example_test in He. cbn [fst] in He. discriminate.
Qed.

(** C9.  A call of [getData_] leaves every field of the object as it was,
    and a second call on the same split returns the same two tensors, value
    for value; so do [getTrainData] and [getTestData]. *)
Theorem getData__deterministic_readonly
    (this : MnistDataset) (isTrainingData : bool) :
  (getData_ isTrainingData this).2 = this /\
  getData_ isTrainingData (getData_ isTrainingData this).2
  = getData_ isTrainingData this /\
  (getTrainData this).2 = this /\
  (getTestData this).2 = this /\
  (getTrainData (getTrainData this).2).1 = (getTrainData this).1 /\
  (getTestData (getTestData this).2).1 = (getTestData this).1 /\
  (getTrainData (getTestData this).2).1 = (getTrainData this).1 /\
  (getTestData (getTrainData this).2).1 = (getTestData this).1.
Proof.
  unfold getTrainData, getTestData.
  rewrite !getData__readonly. done.
Qed.

(** C10.  On a new object, before any load, [getTrainData] and
    [getTestData] return normally: an image tensor of shape
    [[0, 28, 28, 1]] over an empty buffer and a label tensor of shape
    [[0, 10]] with no row; the object is unchanged. *)
Theorem getData_before_load :
  getTrainData new_MnistDataset
  = (Resolved (mkTrainDataSet (mkTensor [] [0; 28; 28; 1]) (mkTensor [] [0; 10])),
     new_MnistDataset) /\
  getTestData new_MnistDataset
  = (Resolved (mkTrainDataSet (mkTensor [] [0; 28; 28; 1]) (mkTensor [] [0; 10])),
     new_MnistDataset).
Proof. split; vm_compute; reflexivity. Qed.

(** ** The iteration bounds are large enough *)

Lemma while_loop_bounded {S : Type} (m : S -> nat)
    (test : S -> bool) (body : S -> outcome S) :
  (forall s, test s = true -> 0 < m s) ->
  (forall s, test s = true -> body s <> Rejected OutOfFuel) ->
  (forall s s', test s = true -> body s = Resolved s' -> m s' < m s) ->
  forall fuel s, m s <= fuel -> while_loop fuel test body s <> Rejected OutOfFuel.
Proof.
  intros Hpos Hbody Hdec fuel.
  induction fuel as [|fuel IH]; intros s Hm; simpl.
  - destruct (test s) eqn:Ht; [|done]. specialize (Hpos s Ht). lia.
  - destruct (test s) eqn:Ht; [|done].
    specialize (Hbody s Ht). pose proof (Hdec s) as Hs.
    destruct (body s) as [s' | e]; simpl; [|congruence].
    apply IH. specialize (Hs s' Ht eq_refl). lia.
Qed.

Lemma loadHeaderValues_bounded (buffer : Buffer) (headerLength : nat) :
  loadHeaderValues buffer headerLength <> Rejected OutOfFuel.
Proof.
  unfold loadHeaderValues.
  pose proof (while_loop_bounded (fun '(i, _) => headerLength - 4 * i)
    (fun '(i, _) => bool_decide (4 * i < headerLength))
    (fun '(i, headerValues) =>
       v ← readUInt32BE buffer (i * 4);
       Resolved (S i, js_assign headerValues i v))) as Hloop.
  match goal with |- ?loop ≫= _ <> _ => destruct loop as [[i hv] | e] eqn:Hrun end;
    [done|]. simpl. intros [= ->]. revert Hrun.
  apply Hloop; [| | | simpl; lia].
  - intros [i hv] Ht. apply bool_decide_eq_true in Ht. lia.
  - intros [i hv] _. unfold readUInt32BE. by repeat case_match.
  - intros [i hv] [i' hv'] Ht. apply bool_decide_eq_true in Ht.
    destruct (readUInt32BE buffer (i * 4)); [|done]. simpl.
    intros [= <- _]. lia.
Qed.

Lemma decodeImages_bounded (buffer : Buffer) :
  decodeImages buffer <> Rejected OutOfFuel.
Proof.
  destruct (decodeImages_cases buffer) as [[-> _] | (k & _ & ->)]; done.
Qed.

Lemma decodeLabels_bounded (buffer : Buffer) :
  decodeLabels buffer <> Rejected OutOfFuel.
Proof.
  destruct (decodeLabels_cases buffer) as [[_ ->] | [_ ->]]; done.
Qed.

Lemma typed_set_from_bounded {A : Type} (target : list A)
    (source : option (list A)) (offset : nat) :
  typed_set_from target source offset <> Rejected OutOfFuel.
Proof.
  unfold typed_set_from, typed_set. destruct source; [|done].
  by case_decide.
Qed.

Lemma getData__bounded (this : MnistDataset) (isTrainingData : bool) :
  (getData_ isTrainingData this).1 <> Rejected OutOfFuel.
Proof.
  rewrite getData__unfold.
  rewrite method_while_readonly; cycle 1.
  { intros [[[[i images] labels] imageOffset] labelOffset] this0. method_step.
    destruct (typed_set_from images _ _); [|done].
    by destruct (typed_set_from labels _ _). }
  match goal with
  | |- context [while_loop ?fuel ?test ?body ?s] =>
      pose proof (while_loop_bounded
        (fun '(i, _, _, _, _) => length (split_images this isTrainingData) - i)
        test body) as Hloop;
      destruct (while_loop fuel test body s)
        as [[[[[i images] labels] imageOffset] labelOffset] | e] eqn:Hrun
  end.
  - unfold tensor4d, oneHot. by repeat case_decide.
  - simpl. intros [= ->]. revert Hrun. apply Hloop; [| | | simpl; lia].
    + intros [[[[i images] labels] imageOffset] labelOffset] Ht.
      apply bool_decide_eq_true in Ht. lia.
    + intros [[[[i images] labels] imageOffset] labelOffset] _. method_step.
      pose proof (typed_set_from_bounded images
        (dataset_images (dataset this) (if isTrainingData then 0 else 2) !! i)
        imageOffset) as Himages.
      destruct (typed_set_from images _ _) as [images' | e]; [|simpl; congruence].
      pose proof (typed_set_from_bounded labels
        (dataset_labels (dataset this) (if isTrainingData then 1 else 3) !! i)
        labelOffset) as Hlabels.
      destruct (typed_set_from labels _ _) as [labels' | e]; [done | simpl; congruence].
    + intros [[[[i images] labels] imageOffset] labelOffset]
        [[[[i' images'] labels'] imageOffset'] labelOffset'] Ht.
      apply bool_decide_eq_true in Ht. method_step.
      destruct (typed_set_from images _ _) as [images1 | e]; [|done].
      destruct (typed_set_from labels _ _) as [labels1 | e]; [|done].
      simpl. intros [= <- _ _ _ _]. lia.
Qed.

(** * Further properties of the loader *)

(** ** Header lengths that are no multiple of 4 *)

Lemma header_word_count_test (h i : nat) :
  4 * i < h <-> i < header_word_count h.
Proof. unfold header_word_count. split; intros; lia_div (h + 3) 4. Qed.

(** X1.  [loadHeaderValues] reads one word for every [i] below
    [headerLength / 4], that is [headerLength / 4] rounded up: a header
    length that is no multiple of 4 reads up to the next multiple.  It
    returns these words, each the big-endian value of its four bytes, when
    the buffer holds them all, and throws a [RangeError] when it does not,
    also when the buffer is as long as the header length. *)
Theorem loadHeaderValues_rounds_up (buffer : Buffer) (headerLength : nat) :
  (4 * header_word_count headerLength <= length buffer /\
   loadHeaderValues buffer headerLength
   = Resolved (map (fun i => big_endian (take 4 (drop (4 * i) buffer)))
                   (seq 0 (header_word_count headerLength)))) \/
  (length buffer < 4 * header_word_count headerLength /\
   loadHeaderValues buffer headerLength = Rejected RangeError).
Proof.
  set (count := header_word_count headerLength).
  destruct (decide (4 * count <= length buffer)) as [Hfits | Hshort].
  - left. split; [done|]. unfold loadHeaderValues.
    set (word := fun i => big_endian (take 4 (drop (4 * i) buffer))).
    edestruct (while_loop_ends
      (fun '(i, headerValues) => i <= count /\ headerValues = map word (seq 0 i))
      (fun '(i, _) => headerLength - 4 * i)) as ([i hv] & -> & [Hi ->] & Hexit);
      [| | simpl; lia |].
    + intros [i hv] [Hi ->] Htest. apply bool_decide_eq_true in Htest.
      pose proof (proj1 (header_word_count_test headerLength i) Htest).
      rewrite readUInt32BE_inside by (fold count in H; lia). simpl.
      eexists; split; [done|]. split; [split|]; [fold count in H; lia | | lia].
      unfold js_assign. rewrite length_map, length_seq.
      rewrite decide_True by done.
      rewrite seq_S, map_app. simpl. unfold word.
      by replace (i * 4) with (4 * i) by lia.
    + simpl. split; [lia | done].
    + apply bool_decide_eq_false in Hexit.
      rewrite header_word_count_test in Hexit. fold count in Hexit.
      by replace count with i by lia.
  - right. split; [lia|]. unfold loadHeaderValues.
    assert (0 < headerLength).
    { destruct headerLength; [|lia]. vm_compute in count. lia. }
    rewrite (while_loop_throws
      (fun '(i, _) => 4 * i <= length buffer)
      (fun '(i, _) => count - 1 - i) _ _ RangeError);
      [done | | | simpl; lia |].
    + intros [i hv] Hi. simpl in Hi. apply bool_decide_eq_true.
      apply header_word_count_test. fold count. lia.
    + intros [i hv] Hi. simpl in Hi.
      destruct (decide (i * 4 + 4 <= length buffer)) as [Hin | Hout].
      * right. rewrite readUInt32BE_inside by done. simpl.
        eexists; split; [done|]. simpl. lia.
      * left. by rewrite readUInt32BE_outside by lia.
    + simpl. unfold count, header_word_count. lia_div (headerLength + 3) 4.
Qed.

(** ** The label decoder on short buffers *)

(** X2.  A label buffer shorter than the 8 header bytes, the empty buffer
    included, is rejected with the [RangeError] of the header read; every
    other buffer decodes, each byte after the header to one label, and a
    buffer of exactly 8 bytes to no label. *)
Theorem decodeLabels_short_or_all (buffer : Buffer) :
  (length buffer < 8 -> decodeLabels buffer = Rejected RangeError) /\
  (8 <= length buffer ->
   decodeLabels buffer = Resolved (map (fun b => [u8 b]) (drop 8 buffer))) /\
  (length buffer = 8 -> decodeLabels buffer = Resolved []) /\
  decodeLabels [] = Rejected RangeError.
Proof.
  destruct (decodeLabels_cases buffer) as [[Hlen Hdec] | [Hlen Hdec]].
  - split; [done|]. split; [lia|]. split; [lia|].
    apply decodeLabels_short. simpl. lia.
  - split; [lia|]. split; [done|].
    split; [|apply decodeLabels_short; simpl; lia].
    intros H8. rewrite Hdec. by rewrite drop_ge by lia.
Qed.

(** The theorem at a buffer of 7 bytes. *)
Lemma decodeLabels_short_or_all_witness :
  decodeLabels [x00; x00; x08; x01; x00; x00; x00] = Rejected RangeError.
Proof.
  apply (proj1 (decodeLabels_short_or_all [x00; x00; x08; x01; x00; x00; x00])).
  simpl. lia.
Defined.

(** ** The header is not interpreted *)

Lemma image_of_record_payload (buffer : Buffer) (r : nat) :
  image_of_record buffer r
  = map (fun b => normalize_pixel (u8 b))
        (take 784 (drop (784 * r) (drop 16 buffer))).
Proof.
  unfold image_of_record, record_bytes.
  rewrite IMAGE_FLAT_SIZE_eq. unfold IMAGE_HEADER_BYTES.
  by rewrite drop_drop.
Qed.

(** X3.  The decoders read the header and do not interpret it: two buffers
    of the same length with the same bytes after the header decode to the
    same outcome, whatever magic number and record count their headers
    hold. *)
Theorem decoders_ignore_header (buffer1 buffer2 : Buffer) :
  length buffer1 = length buffer2 ->
  (drop 16 buffer1 = drop 16 buffer2 ->
   decodeImages buffer1 = decodeImages buffer2) /\
  (drop 8 buffer1 = drop 8 buffer2 ->
   decodeLabels buffer1 = decodeLabels buffer2).
Proof.
  intros Hlen. split; intros Hpayload.
  - destruct (decodeImages_cases buffer1) as [[-> Hmod] | (k & Hk & ->)].
    + rewrite Hlen in Hmod. by rewrite decodeImages_malformed.
    + rewrite (decodeImages_whole buffer2 k) by lia.
      f_equal. apply map_ext. intros r.
      by rewrite !image_of_record_payload, Hpayload.
  - destruct (decodeLabels_cases buffer1) as [[Hshort ->] | [Hlong ->]].
    + by rewrite decodeLabels_short by lia.
    + destruct (decodeLabels_cases buffer2) as [[? _] | [_ ->]]; [lia|].
      by rewrite Hpayload.
Qed.

(** The theorem at the label file of 3 and 7 and the same labels under a
    header of zeros. *)
Lemma decoders_ignore_header_witness :
  decodeLabels label_file_3_7
  = decodeLabels [x00; x00; x00; x00; x00; x00; x00; x00; x03; x07].
Proof.
  apply (decoders_ignore_header label_file_3_7
           [x00; x00; x00; x00; x00; x00; x00; x00; x03; x07]);
    reflexivity.
Defined.

(** ** The normalized pixel values *)

Lemma byte_value_cases (P : Z -> Prop) :
  (forall n, n < 256 -> P (Z.of_nat n)) -> forall b : byte, P (u8 b).
Proof.
  intros H b. pose proof (u8_range b).
  replace (u8 b) with (Z.of_nat (Z.to_nat (u8 b))) by lia. apply H. lia.
Qed.

Lemma normalize_pixel_unit_interval (b : byte) :
  (0 <= Q_of_float (normalize_pixel (u8 b)) <= 1)%Q.
Proof.
  assert (Hunit : pixel_in_unit_interval (u8 b) = true).
  { revert b. apply (byte_value_cases (fun v => pixel_in_unit_interval v = true)).
    intros n Hn.
    assert (Hall : forallb (fun n => pixel_in_unit_interval (Z.of_nat n)) (seq 0 256) = true)
      by (vm_compute; reflexivity).
    rewrite forallb_forall in Hall. apply Hall, in_seq. lia. }
  unfold pixel_in_unit_interval in Hunit.
  apply andb_true_iff in Hunit as [H0 H1].
  split; by apply Qle_bool_iff.
Qed.

(** X4.  The stored pixel values lie in the interval from 0 to 1, and they
    keep the order of the bytes: a larger byte gives a strictly larger
    value, so that different bytes never give the same pixel value. *)
Theorem normalize_pixel_unit_interval_increasing (b1 b2 : byte) :
  (0 <= Q_of_float (normalize_pixel (u8 b1)) <= 1)%Q /\
  ((u8 b1 < u8 b2)%Z ->
   (Q_of_float (normalize_pixel (u8 b1)) < Q_of_float (normalize_pixel (u8 b2)))%Q) /\
  (normalize_pixel (u8 b1) = normalize_pixel (u8 b2) -> b1 = b2).
Proof.
  assert (Hnext : forall n, n < 255 ->
            (Q_of_float (normalize_pixel (Z.of_nat n))
             < Q_of_float (normalize_pixel (Z.of_nat (S n))))%Q).
  { intros n Hn.
    assert (Hall : forallb (fun n => pixel_lt (Z.of_nat n) (Z.of_nat (S n)))
                     (seq 0 255) = true) by (vm_compute; reflexivity).
    rewrite forallb_forall in Hall.
    specialize (Hall n ltac:(apply in_seq; lia)). unfold pixel_lt in Hall.
    apply Qnot_le_lt. intros Hle. apply Qle_bool_iff in Hle.
    rewrite Hle in Hall. discriminate. }
  assert (Hmono : forall n' n, n < n' -> n' < 256 ->
            (Q_of_float (normalize_pixel (Z.of_nat n))
             < Q_of_float (normalize_pixel (Z.of_nat n')))%Q).
  { induction n' as [|n' IH]; intros n Hn Hn'; [lia|].
    destruct (decide (n = n')) as [-> | Hne]; [apply Hnext; lia|].
    eapply Qlt_trans; [apply IH; lia | apply Hnext; lia]. }
  assert (Hstrict : forall b b' : byte, (u8 b < u8 b')%Z ->
            (Q_of_float (normalize_pixel (u8 b)) < Q_of_float (normalize_pixel (u8 b')))%Q).
  { intros b b' Hbb'. pose proof (u8_range b). pose proof (u8_range b').
    replace (u8 b) with (Z.of_nat (Z.to_nat (u8 b))) by lia.
    replace (u8 b') with (Z.of_nat (Z.to_nat (u8 b'))) by lia.
    apply Hmono; lia. }
  split; [apply normalize_pixel_unit_interval | split; [apply Hstrict|]].
  intros Heq.
  assert (u8 b1 = u8 b2) as Hu8.
  { destruct (Z.lt_trichotomy (u8 b1) (u8 b2)) as [Hlt' | [Heq' | Hgt']]; [|done|].
    - apply Hstrict in Hlt'. rewrite Heq in Hlt'. by apply Qlt_irrefl in Hlt'.
    - apply Hstrict in Hgt'. rewrite Heq in Hgt'. by apply Qlt_irrefl in Hgt'. }
  unfold u8 in Hu8. apply N2Z.inj in Hu8.
  pose proof (Byte.of_to_N b1) as H1. pose proof (Byte.of_to_N b2) as H2.
  rewrite Hu8 in H1. congruence.
Qed.

(** The theorem at the bytes 127 and 128. *)
Lemma normalize_pixel_unit_interval_increasing_witness :
  (Q_of_float (normalize_pixel (u8 x7f)) < Q_of_float (normalize_pixel (u8 x80)))%Q.
Proof.
  apply (proj1 (proj2 (normalize_pixel_unit_interval_increasing x7f x80))).
  reflexivity.
Defined.

(** ** The reasons for which [loadData] rejects *)

Lemma loadImages_rejected (fetchResource : string -> bool -> outcome Buffer)
    (url : string) (e : error) :
  loadImages fetchResource url = Rejected e ->
  e = RangeError \/ fetchResource url true = Rejected e.
Proof.
  unfold loadImages. destruct (fetchResource url true) as [buffer | e'] eqn:Hfetch.
  - cbn [mbind outcome_bind].
    destruct (decodeImages_cases buffer) as [[-> _] | (k & _ & ->)]; [|done].
    intros [= <-]. by left.
  - cbn [mbind outcome_bind]. intros [= <-]. by right.
Qed.

Lemma loadLabels_rejected (fetchResource : string -> bool -> outcome Buffer)
    (url : string) (e : error) :
  loadLabels fetchResource url = Rejected e ->
  e = RangeError \/ fetchResource url true = Rejected e.
Proof.
  unfold loadLabels. destruct (fetchResource url true) as [buffer | e'] eqn:Hfetch.
  - cbn [mbind outcome_bind].
    destruct (decodeLabels_cases buffer) as [[_ ->] | [_ ->]]; [|done].
    intros [= <-]. by left.
  - cbn [mbind outcome_bind]. intros [= <-]. by right.
Qed.

(** What a call of [loadData] does to the state. *)
Lemma loadData_cases (fetchResource : string -> bool -> outcome Buffer)
    (sched : nat) (this : MnistDataset) :
  (exists e,
     Promise_all4 sched
       (loadImages fetchResource TRAIN_IMAGES_FILE)
       (loadLabels fetchResource TRAIN_LABELS_FILE)
       (loadImages fetchResource TEST_IMAGES_FILE)
       (loadLabels fetchResource TEST_LABELS_FILE) = Rejected e /\
     loadData fetchResource sched this = (Rejected e, this)) \/
  (exists d0 d1 d2 d3,
     loadImages fetchResource TRAIN_IMAGES_FILE = Resolved d0 /\
     loadLabels fetchResource TRAIN_LABELS_FILE = Resolved d1 /\
     loadImages fetchResource TEST_IMAGES_FILE = Resolved d2 /\
     loadLabels fetchResource TEST_LABELS_FILE = Resolved d3 /\
     loadData fetchResource sched this
     = (Resolved tt,
        mkMnistDataset (d0, d1, d2, d3) (length d0) (length d2)
                       (trainBatchIndex this) (testBatchIndex this))).
Proof.
  destruct (Promise_all4 sched
              (loadImages fetchResource TRAIN_IMAGES_FILE)
              (loadLabels fetchResource TRAIN_LABELS_FILE)
              (loadImages fetchResource TEST_IMAGES_FILE)
              (loadLabels fetchResource TEST_LABELS_FILE))
    as [[[[d0 d1] d2] d3] | e] eqn:Hall.
  - right. apply Promise_all4_resolved in Hall as (H0 & H1 & H2 & H3). simpl in *.
    exists d0, d1, d2, d3. repeat (split; [done|]).
    by apply loadData_resolved.
  - left. exists e. split; [done|]. by apply loadData_rejected.
Qed.

(** X5.  [loadData] rejects only with the reason one of the four fetches
    rejected with, or with the [RangeError] of a decoder reading past the
    end of its buffer: the loader itself raises no other error. *)
Theorem loadData_rejection_reason
    (fetchResource : string -> bool -> outcome Buffer) (sched : nat)
    (this : MnistDataset) (e : error) :
  (loadData fetchResource sched this).1 = Rejected e ->
  e = RangeError \/
  fetchResource TRAIN_IMAGES_FILE true = Rejected e \/
  fetchResource TRAIN_LABELS_FILE true = Rejected e \/
  fetchResource TEST_IMAGES_FILE true = Rejected e \/
  fetchResource TEST_LABELS_FILE true = Rejected e.
Proof.
  intros Hrej.
  destruct (loadData_cases fetchResource sched this)
    as [(e' & Hall & Hload) | (d0 & d1 & d2 & d3 & _ & _ & _ & _ & Hload)];
    rewrite Hload in Hrej; [|done].
  injection Hrej as ->.
  apply Promise_all4_reason in Hall as [H | [H | [H | H]]].
  - apply loadImages_rejected in H as [-> | H]; auto.
  - apply loadLabels_rejected in H as [-> | H]; auto.
  - apply loadImages_rejected in H as [-> | H]; auto.
  - apply loadLabels_rejected in H as [-> | H]; auto.
Qed.

(** The theorem at the collaborator whose fetch of the test labels fails. *)
Lemma loadData_rejection_reason_witness :
  FetchError = RangeError \/
  fetch_failing TRAIN_IMAGES_FILE true = Rejected FetchError \/
  fetch_failing TRAIN_LABELS_FILE true = Rejected FetchError \/
  fetch_failing TEST_IMAGES_FILE true = Rejected FetchError \/
  fetch_failing TEST_LABELS_FILE true = Rejected FetchError.
Proof.
  apply (loadData_rejection_reason fetch_failing 0 new_MnistDataset FetchError).
  vm_compute. reflexivity.
Defined.

(** ** Loading again *)

Lemma loadData_batch_indices (fetchResource : string -> bool -> outcome Buffer)
    (sched : nat) (this : MnistDataset) :
  trainBatchIndex (loadData fetchResource sched this).2 = trainBatchIndex this /\
  testBatchIndex (loadData fetchResource sched this).2 = testBatchIndex this.
Proof.
  destruct (loadData_cases fetchResource sched this)
    as [(e & _ & ->) | (d0 & d1 & d2 & d3 & _ & _ & _ & _ & ->)]; done.
Qed.

(** X6.  A load that succeeds replaces everything an earlier load stored:
    after any earlier call of [loadData], successful or not, the outcome
    and the state of a successful load are those of the same load on the
    state before the earlier call.  No record of the earlier data is left in
    the collections or the sizes. *)
Theorem loadData_replaces
    (fetch1 fetch2 : string -> bool -> outcome Buffer) (sched1 sched2 : nat)
    (this : MnistDataset) :
  (loadData fetch2 sched2 this).1 = Resolved tt ->
  loadData fetch2 sched2 (loadData fetch1 sched1 this).2
  = loadData fetch2 sched2 this.
Proof.
  intros Hok.
  destruct (loadData_batch_indices fetch1 sched1 this) as [Htrain Htest].
  destruct (loadData_cases fetch2 sched2 this)
    as [(e & _ & Hload) | (d0 & d1 & d2 & d3 & H0 & H1 & H2 & H3 & Hload)].
  - by rewrite Hload in Hok.
  - rewrite Hload.
    rewrite (loadData_resolved fetch2 sched2 _ d0 d2 d1 d3) by done.
    by rewrite Htrain, Htest.
Qed.

(** The theorem at the example files loaded after the files whose counts
    differ. *)
Lemma loadData_replaces_witness :
  loadData fetch_example 0 (loadData fetch_mismatch 0 new_MnistDataset).2
  = loadData fetch_example 0 new_MnistDataset.
Proof.
  apply (loadData_replaces fetch_mismatch fetch_example 0 0 new_MnistDataset).
  vm_compute. reflexivity.
Defined.

(** ** The states of an object *)

Lemma Reachable_state (this : MnistDataset) :
  Reachable this ->
  this = new_MnistDataset \/
  exists fetchResource d0 d1 d2 d3,
    loadImages fetchResource TRAIN_IMAGES_FILE = Resolved d0 /\
    loadLabels fetchResource TRAIN_LABELS_FILE = Resolved d1 /\
    loadImages fetchResource TEST_IMAGES_FILE = Resolved d2 /\
    loadLabels fetchResource TEST_LABELS_FILE = Resolved d3 /\
    this = mkMnistDataset (d0, d1, d2, d3) (length d0) (length d2) 0 0.
Proof.
  induction 1 as [| fetchResource sched this _ IH | isTrainingData this _ IH].
  - by left.
  - assert (trainBatchIndex this = 0 /\ testBatchIndex this = 0) as [Htrain Htest].
    { destruct IH as [-> | (? & ? & ? & ? & ? & _ & _ & _ & _ & ->)]; done. }
    destruct (loadData_cases fetchResource sched this)
      as [(e & _ & ->) | (d0 & d1 & d2 & d3 & H0 & H1 & H2 & H3 & ->)]; [done|].
    right. exists fetchResource, d0, d1, d2, d3. simpl.
    by rewrite Htrain, Htest.
  - by rewrite getData__readonly.
Qed.

Lemma Reachable_records (this : MnistDataset) (isTrainingData : bool) :
  Reachable this ->
  Forall (fun r => length r = 784) (split_images this isTrainingData) /\
  Forall (fun l => exists b, l = [u8 b]) (split_labels this isTrainingData).
Proof.
  intros Hreach.
  destruct (Reachable_state this Hreach)
    as [-> | (f & d0 & d1 & d2 & d3 & H0 & H1 & H2 & H3 & ->)].
  - destruct isTrainingData; split; constructor.
  - unfold split_images, split_labels. simpl.
    destruct isTrainingData;
      eauto using loadImages_resolved, loadLabels_resolved.
Qed.

Lemma decodeImages_pixels (buffer : Buffer) (images : list Float32Array) :
  decodeImages buffer = Resolved images ->
  Forall (fun image => forall v, v ∈ image -> exists b, v = normalize_pixel (u8 b))
         images.
Proof.
  intros Himages.
  destruct (decodeImages_cases buffer) as [[Hrej _] | (k & Hlen & Hres)];
    [congruence|].
  rewrite Hres in Himages. injection Himages as <-.
  apply Forall_forall. intros image Himage v Hv.
  apply list_elem_of_fmap in Himage as (r & -> & _).
  unfold image_of_record in Hv.
  apply list_elem_of_fmap in Hv as (b & -> & _). by exists b.
Qed.

(** X7.  In every state an object can be in (after the constructor and any
    calls of [loadData], resolved or rejected, and of [getData_]):
    [trainSize] and [testSize] are the numbers of image records of the two
    splits, the two batch indices are 0, every image record has 784 values,
    each the normalized value of a byte, and every label record holds one
    value from 0 to 255. *)
Theorem Reachable_invariant (this : MnistDataset) :
  Reachable this ->
  trainSize this = length (split_images this true) /\
  testSize this = length (split_images this false) /\
  trainBatchIndex this = 0 /\
  testBatchIndex this = 0 /\
  forall isTrainingData,
    Forall (fun image =>
              length image = 784 /\
              forall v, v ∈ image -> exists b, v = normalize_pixel (u8 b))
           (split_images this isTrainingData) /\
    Forall (fun label => exists v, label = [v] /\ (0 <= v <= 255)%Z)
           (split_labels this isTrainingData).
Proof.
  intros Hreach.
  destruct (Reachable_state this Hreach)
    as [-> | (f & d0 & d1 & d2 & d3 & H0 & H1 & H2 & H3 & ->)].
  - repeat (split; [done|]). intros []; split; constructor.
  - repeat (split; [done|]). intros isTrainingData.
    assert (Himages : forall url d, loadImages f url = Resolved d ->
      Forall (fun image => length image = 784 /\
                forall v, v ∈ image -> exists b, v = normalize_pixel (u8 b)) d).
    { intros url d Hd. apply Forall_and. split; [by eapply loadImages_resolved|].
      unfold loadImages in Hd. destruct (f url true) as [buffer|]; [|done].
      by apply decodeImages_pixels in Hd. }
    assert (Hlabels : forall url d, loadLabels f url = Resolved d ->
      Forall (fun label => exists v, label = [v] /\ (0 <= v <= 255)%Z) d).
    { intros url d Hd. apply loadLabels_resolved in Hd.
      eapply Forall_impl; [exact Hd|]. intros label [b ->].
      exists (u8 b). pose proof (u8_range b). split; [done | lia]. }
    unfold split_images, split_labels. simpl.
    destruct isTrainingData; eauto.
Qed.

(** The theorem at the state after a load of the example files, a load
    that fails and a read. *)
Lemma Reachable_invariant_witness :
  trainSize (getData_ true (loadData fetch_failing 0 loaded_example).2).2 = 2.
Proof.
  pose proof (Reachable_invariant
    (getData_ true (loadData fetch_failing 0 loaded_example).2).2
    (Reachable_getData_ true _
       (Reachable_loadData fetch_failing 0 _
          (Reachable_loadData fetch_example 0 _ Reachable_new)))) as [H _].
  rewrite H. vm_compute. reflexivity.
Defined.

(** ** [getData_] when the numbers of images and labels differ *)

Section GetDataCounts.

Variable this : MnistDataset.
Variable isTrainingData : bool.

Local Abbreviation imgs := (split_images this isTrainingData).
Local Abbreviation lbls := (split_labels this isTrainingData).

Hypothesis images_wf : Forall (fun r => length r = 784) imgs.
Hypothesis labels_wf : Forall (fun l => length l = 1) lbls.

(** More labels than images: the labels past the number of images are not
    read. *)
Lemma getData__stacked_prefix :
  length imgs <= length lbls ->
  getData_ isTrainingData this
  = (Resolved
       (mkTrainDataSet
          (mkTensor (concat imgs) [length imgs; 28; 28; 1])
          (mkTensor (concat (map (fun index => map f32_of_Z (oneHot_row 10 index))
                                 (concat (take (length imgs) lbls))))
                    [length imgs; 10])),
     this).
Proof.
  intros Hsize.
  rewrite getData__unfold, stack_loop_stacked by done.
  unfold tensor4d. rewrite decide_True; cycle 1.
  { rewrite sizeFromShape_images.
    rewrite <- (firstn_all imgs) at 1. by apply concat_take_length. }
  unfold oneHot. rewrite decide_False by (unfold LABEL_FLAT_SIZE; lia).
  unfold toFloat, tensor1d. cbn [values shape app].
  rewrite (concat_take_length 1) by done.
  unfold IMAGE_HEIGHT, IMAGE_WIDTH, LABEL_FLAT_SIZE.
  by rewrite map_concat_map, Nat.mul_1_r.
Qed.

(** Fewer labels than images: the loop reads the label of the first image
    without one, which is [undefined]. *)
Lemma getData__missing_label :
  length lbls < length imgs ->
  getData_ isTrainingData this = (Rejected TypeError, this).
Proof.
  intros Hsize.
  rewrite getData__unfold.
  rewrite method_while_readonly; cycle 1.
  { intros [[[[i images] labels] imageOffset] labelOffset] this0. method_step.
    destruct (typed_set_from images _ _); [|done].
    by destruct (typed_set_from labels _ _). }
  rewrite sizeFromShape_images, sizeFromShape_labels.
  unfold new_Float32Array, new_Int32Array.
  rewrite (while_loop_throws
    (fun '(i, images, labels, imageOffset, labelOffset) =>
       i <= length lbls /\ imageOffset = i * 784 /\ labelOffset = i /\
       images = concat (take i imgs)
                ++ replicate ((length imgs - i) * 784) f32_zero /\
       labels = concat (take i lbls) ++ replicate (length imgs - i) 0%Z)
    (fun '(i, _, _, _, _) => length lbls - i) _ _ TypeError);
    [done | | | | simpl; lia].
  - intros [[[[i images] labels] imageOffset] labelOffset] (Hi & _).
    apply bool_decide_eq_true. unfold split_images in *. lia.
  - intros [[[[i images] labels] imageOffset] labelOffset]
      (Hi & -> & -> & -> & ->).
    method_step.
    change (dataset_images (dataset this) (if isTrainingData then 0 else 2))
      with imgs.
    change (dataset_labels (dataset this) (if isTrainingData then 1 else 3))
      with lbls.
    destruct (lookup_lt_is_Some_2 imgs i) as [r Hr]; [lia|].
    pose proof (Forall_lookup_1 _ _ _ _ images_wf Hr) as Hrlen.
    simpl in Hrlen.
    rewrite Hr. unfold typed_set_from.
    rewrite typed_set_fill;
      [| by rewrite (concat_take_length 784) by (done || lia) | lia].
    destruct (lbls !! i) as [l|] eqn:Hl; [right | by left].
    pose proof (Forall_lookup_1 _ _ _ _ labels_wf Hl) as Hllen.
    pose proof (lookup_lt_Some _ _ _ Hl) as Hlt.
    simpl in Hllen.
    rewrite typed_set_fill;
      [| by rewrite (concat_take_length 1), Nat.mul_1_r
           by (done || lia) | lia].
    cbn beta iota. eexists; split; [done|]. cbn beta iota.
    split; [|lia].
    rewrite IMAGE_FLAT_SIZE_eq, Hrlen, Hllen.
    rewrite (concat_take_S _ _ _ Hr), (concat_take_S _ _ _ Hl).
    split; [lia|]. split; [lia|]. split; [lia|].
    split; f_equal; f_equal; lia.
  - cbn beta iota. split; [lia|]. split; [done|]. split; [done|].
    rewrite Nat.sub_0_r. done.
Qed.

End GetDataCounts.

(** X8.  In a state an object can be in, when a split holds fewer labels
    than images, [getData_] on that split throws a [TypeError] (the read of
    the missing label gives [undefined]) and leaves the object as it
    was. *)
Theorem getData__fewer_labels (this : MnistDataset) (isTrainingData : bool) :
  Reachable this ->
  length (split_labels this isTrainingData)
  < length (split_images this isTrainingData) ->
  getData_ isTrainingData this = (Rejected TypeError, this).
Proof.
  intros Hreach Hfewer.
  destruct (Reachable_records this isTrainingData Hreach) as [Himages Hlabels].
  apply getData__missing_label; [done | by apply singletons_length | done].
Qed.

(** The theorem at a training image without a label. *)
Lemma getData__fewer_labels_witness :
  getData_ true (loadData fetch_unlabelled 0 new_MnistDataset).2
  = (Rejected TypeError, (loadData fetch_unlabelled 0 new_MnistDataset).2).
Proof.
  apply (getData__fewer_labels (loadData fetch_unlabelled 0 new_MnistDataset).2 true).
  - apply Reachable_loadData, Reachable_new.
  - vm_compute. lia.
Defined.

(** X9.  In a state an object can be in, when a split holds at least as
    many labels as images, [getData_] on that split returns a batch of as
    many rows as there are images, which is the [trainSize] or [testSize] of
    the object: the image buffer is the image records one after the other,
    and the label rows are the one-hot rows of the first labels; the labels
    past the number of images are not used. *)
Theorem getData__more_labels (this : MnistDataset) (isTrainingData : bool) :
  Reachable this ->
  length (split_images this isTrainingData)
  <= length (split_labels this isTrainingData) ->
  let size := if isTrainingData then trainSize this else testSize this in
  size = length (split_images this isTrainingData) /\
  getData_ isTrainingData this
  = (Resolved
       (mkTrainDataSet
          (mkTensor (concat (split_images this isTrainingData)) [size; 28; 28; 1])
          (mkTensor (concat (map (fun index => map f32_of_Z (oneHot_row 10 index))
                                 (concat (take size
                                            (split_labels this isTrainingData)))))
                    [size; 10])),
     this).
Proof.
  intros Hreach Hmore size.
  assert (Hsize : size = length (split_images this isTrainingData)).
  { unfold size.
    destruct (Reachable_state this Hreach)
      as [-> | (f & d0 & d1 & d2 & d3 & _ & _ & _ & _ & ->)];
      by destruct isTrainingData. }
  split; [done|]. rewrite Hsize.
  destruct (Reachable_records this isTrainingData Hreach) as [Himages Hlabels].
  apply getData__stacked_prefix; [done | by apply singletons_length | done].
Qed.

(** The theorem at a training image with the two labels 3 and 7. *)
Lemma getData__more_labels_witness :
  let this := (loadData fetch_extra_labels 0 new_MnistDataset).2 in
  let size := trainSize this in
  size = length (split_images this true) /\
  getData_ true this
  = (Resolved
       (mkTrainDataSet
          (mkTensor (concat (split_images this true)) [size; 28; 28; 1])
          (mkTensor (concat (map (fun index => map f32_of_Z (oneHot_row 10 index))
                                 (concat (take size (split_labels this true)))))
                    [size; 10])),
     this).
Proof.
  apply (getData__more_labels (loadData fetch_extra_labels 0 new_MnistDataset).2 true).
  - apply Reachable_loadData, Reachable_new.
  - vm_compute. lia.
Defined.

(** ** From the files to the batch *)

Lemma concat_record_bytes (h n : nat) (buffer : Buffer) (k : nat) :
  h + n * k <= length buffer ->
  concat (map (record_bytes h n buffer) (seq 0 k)) = take (n * k) (drop h buffer).
Proof.
  induction k as [|k IH]; intros Hlen.
  - by rewrite Nat.mul_0_r.
  - rewrite seq_S, map_app, concat_app, IH by lia. simpl.
    rewrite app_nil_r. unfold record_bytes.
    rewrite <- (drop_drop buffer (n * k) h), take_take_drop.
    f_equal. lia.
Qed.

Lemma concat_image_records (buffer : Buffer) (k : nat) :
  length buffer = 16 + 784 * k ->
  concat (map (image_of_record buffer) (seq 0 k))
  = map (fun b => normalize_pixel (u8 b)) (drop 16 buffer).
Proof.
  intros Hlen. unfold image_of_record.
  rewrite <- map_concat_map.
  rewrite IMAGE_FLAT_SIZE_eq. unfold IMAGE_HEADER_BYTES.
  rewrite concat_record_bytes by lia.
  by rewrite take_ge by (rewrite length_drop; lia).
Qed.

(** X10.  Loading and then reading reproduces the files, in file order:
    when the training image file has [16 + 784 k] bytes and the training
    label file [8 + k] bytes, and the test files load, [loadData] resolves
    and [getTrainData] then returns the image tensor of shape
    [[k, 28, 28, 1]] whose buffer is the normalized bytes of the image file
    after its header, and the label tensor of shape [[k, 10]] whose rows are
    the one-hot rows of the bytes of the label file after its header. *)
Theorem loadData_then_getTrainData
    (fetchResource : string -> bool -> outcome Buffer) (sched : nat)
    (this : MnistDataset) (images_file labels_file : Buffer) (k : nat)
    (d2 : list Float32Array) (d3 : list Int32Array) :
  fetchResource TRAIN_IMAGES_FILE true = Resolved images_file ->
  fetchResource TRAIN_LABELS_FILE true = Resolved labels_file ->
  length images_file = 16 + 784 * k ->
  length labels_file = 8 + k ->
  loadImages fetchResource TEST_IMAGES_FILE = Resolved d2 ->
  loadLabels fetchResource TEST_LABELS_FILE = Resolved d3 ->
  exists this',
    loadData fetchResource sched this = (Resolved tt, this') /\
    trainSize this' = k /\
    getTrainData this'
    = (Resolved
         (mkTrainDataSet
            (mkTensor (map (fun b => normalize_pixel (u8 b)) (drop 16 images_file))
                      [k; 28; 28; 1])
            (mkTensor (concat (map (fun b => map f32_of_Z (oneHot_row 10 (u8 b)))
                                   (drop 8 labels_file)))
                      [k; 10])),
       this').
Proof.
  intros Himages Hlabels Hilen Hllen H2 H3.
  assert (H0 : loadImages fetchResource TRAIN_IMAGES_FILE
               = Resolved (map (image_of_record images_file) (seq 0 k))).
  { unfold loadImages. rewrite Himages. by apply decodeImages_whole. }
  assert (H1 : loadLabels fetchResource TRAIN_LABELS_FILE
               = Resolved (map (fun b => [u8 b]) (drop 8 labels_file))).
  { unfold loadLabels. rewrite Hlabels. cbn [mbind outcome_bind].
    destruct (decodeLabels_cases labels_file) as [[? _] | [_ ->]]; [lia | done]. }
  eexists. split; [by apply loadData_resolved|].
  split; [cbn [trainSize]; by rewrite length_map, length_seq|].
  unfold getTrainData.
  rewrite (getData__loaded _ true k).
  - unfold split_images, split_labels. cbn [dataset dataset_images dataset_labels].
    rewrite concat_image_records by done.
    rewrite concat_singletons. by rewrite map_map.
  - exists fetchResource, sched, this. by apply loadData_resolved.
  - unfold split_images. cbn [dataset dataset_images].
    by rewrite length_map, length_seq.
  - unfold split_labels. cbn [dataset dataset_labels].
    rewrite length_map, length_drop. lia.
Qed.

(** The theorem at the example files. *)
Lemma loadData_then_getTrainData_witness :
  exists this',
    loadData fetch_example 0 new_MnistDataset = (Resolved tt, this') /\
    trainSize this' = 2 /\
    getTrainData this'
    = (Resolved
         (mkTrainDataSet
            (mkTensor (map (fun b => normalize_pixel (u8 b)) (drop 16 image_file_two))
                      [2; 28; 28; 1])
            (mkTensor (concat (map (fun b => map f32_of_Z (oneHot_row 10 (u8 b)))
                                   (drop 8 label_file_3_7)))
                      [2; 10])),
       this').
Proof.
  apply (loadData_then_getTrainData fetch_example 0 new_MnistDataset
           image_file_two label_file_3_7 2
           [image_of_record image_file_one 0] [[10%Z]]);
    vm_compute; reflexivity.
Defined.

(** ** [getData_] in any state *)

Lemma while_loop_keeps {S : Type} (I : S -> Prop)
    (test : S -> bool) (body : S -> outcome S) :
  (forall s s', I s -> test s = true -> body s = Resolved s' -> I s') ->
  forall fuel s s', I s -> while_loop fuel test body s = Resolved s' ->
    I s' /\ test s' = false.
Proof.
  intros Hbody fuel. induction fuel as [|fuel IH]; intros s s' HI; simpl.
  - destruct (test s) eqn:Ht; [done|]. by intros [= <-].
  - destruct (test s) eqn:Ht; [|by intros [= <-]].
    destruct (body s) as [s1 | e] eqn:Hs; [|done]. simpl.
    apply IH. by eapply Hbody.
Qed.

Lemma while_loop_error {S : Type} (P : error -> Prop)
    (test : S -> bool) (body : S -> outcome S) :
  P OutOfFuel ->
  (forall s e, body s = Rejected e -> P e) ->
  forall fuel s e, while_loop fuel test body s = Rejected e -> P e.
Proof.
  intros Hfuel Hbody fuel. induction fuel as [|fuel IH]; intros s e; simpl.
  - destruct (test s); [|done]. by intros [= <-].
  - destruct (test s); [|done].
    destruct (body s) as [s'|e'] eqn:Hs; simpl; [apply IH|].
    intros [= <-]. by eapply Hbody.
Qed.

Lemma oneHot_values_length (depth : nat) (indices : list Z) :
  length (concat (map (oneHot_row depth) indices)) = length indices * depth.
Proof.
  induction indices as [|index indices IH]; [done|].
  cbn [map concat length]. rewrite length_app, oneHot_row_length, IH. lia.
Qed.

Lemma typed_set_from_length {A : Type} (target : list A)
    (source : option (list A)) (offset : nat) (target' : list A) :
  typed_set_from target source offset = Resolved target' ->
  length target' = length target.
Proof.
  unfold typed_set_from, typed_set. destruct source as [source|]; [|done].
  case_decide; [|done]. intros [= <-].
  rewrite !length_app, length_take, length_drop. lia.
Qed.

Lemma typed_set_from_error {A : Type} (target : list A)
    (source : option (list A)) (offset : nat) (e : error) :
  typed_set_from target source offset = Rejected e ->
  e = RangeError \/ e = TypeError.
Proof.
  unfold typed_set_from, typed_set. destruct source as [source|].
  - case_decide; [done|]. intros [= <-]. by left.
  - intros [= <-]. by right.
Qed.

(** X11.  In every state, also one whose collections were assigned from
    outside, a batch that [getData_] returns has consistent sizes: with
    [size] images in the split, the image tensor has shape
    [[size, 28, 28, 1]] over [size * 784] values and the label tensor has
    shape [[size, 10]] over [size * 10] values.  The check of the tensor
    constructor never fails: when [getData_] throws, it is the [RangeError]
    of a record that does not fit or the [TypeError] of a missing
    record. *)
Theorem getData__sizes (this : MnistDataset) (isTrainingData : bool) :
  let size := length (split_images this isTrainingData) in
  (forall result, (getData_ isTrainingData this).1 = Resolved result ->
     shape (xs result) = [size; 28; 28; 1] /\
     length (values (xs result)) = size * 784 /\
     shape (ys result) = [size; 10] /\
     length (values (ys result)) = size * 10) /\
  (forall e, (getData_ isTrainingData this).1 = Rejected e ->
     e = RangeError \/ e = TypeError).
Proof.
  intros size.
  rewrite getData__unfold.
  rewrite method_while_readonly; cycle 1.
  { intros [[[[i images] labels] imageOffset] labelOffset] this0. method_step.
    destruct (typed_set_from images _ _); [|done].
    by destruct (typed_set_from labels _ _). }
  fold size.
  match goal with
  | |- context [while_loop ?fuel ?test ?body ?s] =>
      pose proof (while_loop_keeps
        (fun '(_, images, labels, _, _) =>
           length images = size * 784 /\ length labels = size)
        test body) as Hkeep;
      pose proof (while_loop_bounded
        (fun '(i, _, _, _, _) => size - i) test body) as Hfuel;
      pose proof (while_loop_error
        (fun e => e = OutOfFuel \/ e = RangeError \/ e = TypeError)
        test body) as Hthrows;
      destruct (while_loop fuel test body s)
        as [[[[[i images] labels] imageOffset] labelOffset] | e] eqn:Hrun
  end.
  - pose proof (fun Hbody Hinit => proj1 (Hkeep Hbody _ _ _ Hinit Hrun)) as Hk.
    cbn beta iota in Hk. destruct Hk as [Himages Hlabels].
    + intros [[[[i0 images0] labels0] io0] lo0] [[[[i1 images1] labels1] io1] lo1]
        [Hi Hl] _. method_step.
      destruct (typed_set_from images0 _ _) as [images'|] eqn:H1; [|done].
      destruct (typed_set_from labels0 _ _) as [labels'|] eqn:H2; [|done].
      cbn [fst]. intros [= _ <- <- _ _].
      apply typed_set_from_length in H1, H2. split; congruence.
    + cbn beta iota. unfold new_Float32Array, new_Int32Array.
      rewrite sizeFromShape_images, sizeFromShape_labels, !length_replicate.
      done.
    + unfold tensor4d, oneHot, toFloat, tensor1d.
      rewrite sizeFromShape_images.
      rewrite decide_True by done.
      rewrite decide_False by (unfold LABEL_FLAT_SIZE; lia).
      cbn [fst]. split; [|done].
      intros result [= <-]. cbn [xs ys values shape app].
      unfold IMAGE_HEIGHT, IMAGE_WIDTH, LABEL_FLAT_SIZE.
      rewrite Hlabels. split; [done|]. split; [done|]. split; [done|].
      by rewrite length_map, oneHot_values_length, Hlabels.
  - cbn [fst]. split; [done|]. intros e' [= <-].
    edestruct Hthrows as [He | He]; [by left | | exact Hrun | subst e | done].
    { intros [[[[i0 images0] labels0] io0] lo0] e0. method_step.
      destruct (typed_set_from images0 _ _) as [images'|e1] eqn:H1; cbn [fst].
      - destruct (typed_set_from labels0 _ _) as [labels'|e2] eqn:H2; cbn [fst];
          [done|].
        intros [= <-]. right. by eapply typed_set_from_error.
      - intros [= <-]. right. by eapply typed_set_from_error. }
    exfalso. revert Hrun. apply Hfuel; [| | | simpl; lia].
    + intros [[[[i0 images0] labels0] io0] lo0] Ht.
      apply bool_decide_eq_true in Ht. fold size in Ht. lia.
    + intros [[[[i0 images0] labels0] io0] lo0] _. method_step.
      destruct (typed_set_from images0 _ _) as [images'|e1] eqn:H1; cbn [fst].
      * destruct (typed_set_from labels0 _ _) as [labels'|e2] eqn:H2; cbn [fst];
          [done|].
        intros [= ->]. by apply typed_set_from_bounded in H2.
      * intros [= ->]. by apply typed_set_from_bounded in H1.
    + intros [[[[i0 images0] labels0] io0] lo0] [[[[i1 images1] labels1] io1] lo1]
        Ht. apply bool_decide_eq_true in Ht. fold size in Ht. method_step.
      destruct (typed_set_from images0 _ _) as [images'|]; [|done].
      destruct (typed_set_from labels0 _ _) as [labels'|]; [|done].
      cbn [fst]. intros [= <- _ _ _ _]. lia.
Qed.

(** ** [getData_] reads one split *)

Lemma while_loop_ext {S : Type} (test : S -> bool) (body1 body2 : S -> outcome S) :
  (forall s, body1 s = body2 s) ->
  forall fuel s, while_loop fuel test body1 s = while_loop fuel test body2 s.
Proof.
  intros Hbody fuel. induction fuel as [|fuel IH]; intros s; simpl; [done|].
  destruct (test s); [|done]. rewrite Hbody.
  destruct (body2 s); simpl; [apply IH | done].
Qed.

(** The outcome of [getData_] as a function of the two collections of the
    split. *)
Lemma getData__outcome (this : MnistDataset) (isTrainingData : bool)
    (images : list Float32Array) (labels : list Int32Array) :
  split_images this isTrainingData = images ->
  split_labels this isTrainingData = labels ->
  (getData_ isTrainingData this).1
  = ('(_, batch, indices, _, _) ←
       while_loop (length images)
         (fun '(i, _, _, _, _) => bool_decide (i < length images))
         (fun '(i, batch, indices, imageOffset, labelOffset) =>
            batch ← typed_set_from batch (images !! i) imageOffset;
            indices ← typed_set_from indices (labels !! i) labelOffset;
            Resolved (S i, batch, indices,
                      imageOffset + IMAGE_FLAT_SIZE, labelOffset + 1))
         (0, new_Float32Array
               (sizeFromShape [length images; IMAGE_HEIGHT; IMAGE_WIDTH; 1]),
          new_Int32Array (sizeFromShape [length images; 1]), 0, 0);
     xs ← tensor4d batch [length images; IMAGE_HEIGHT; IMAGE_WIDTH; 1];
     ys ← oneHot (tensor1d indices) LABEL_FLAT_SIZE;
     Resolved (mkTrainDataSet xs (toFloat ys))).
Proof.
  intros <- <-.
  rewrite getData__unfold.
  rewrite method_while_readonly; cycle 1.
  { intros [[[[i batch] indices] imageOffset] labelOffset] this0. method_step.
    destruct (typed_set_from batch _ _); [|done].
    by destruct (typed_set_from indices _ _). }
  unfold split_images, split_labels.
  rewrite (while_loop_ext _ _
    (fun '(i, batch, indices, imageOffset, labelOffset) =>
       batch ← typed_set_from batch
                 (dataset_images (dataset this) (if isTrainingData then 0 else 2) !! i)
                 imageOffset;
       indices ← typed_set_from indices
                   (dataset_labels (dataset this) (if isTrainingData then 1 else 3) !! i)
                   labelOffset;
       Resolved (S i, batch, indices,
                 imageOffset + IMAGE_FLAT_SIZE, labelOffset + 1))); cycle 1.
  { intros [[[[i batch] indices] imageOffset] labelOffset]. method_step.
    destruct (typed_set_from batch _ _); [|done].
    by destruct (typed_set_from indices _ _). }
  destruct (while_loop _ _ _ _)
    as [[[[[i batch] indices] imageOffset] labelOffset] | e]; [|done].
  cbn [mbind outcome_bind fst].
  destruct (tensor4d batch _); [|done].
  by destruct (oneHot _ _).
Qed.

(** X12.  [getData_] reads the two collections of its split and nothing
    else of the object: two states with the same images and labels in a
    split give the same outcome for that split, whatever the other split,
    the sizes and the batch indices hold.  The training batch is never
    built from test data, nor the test batch from training data. *)
Theorem getData__reads_its_split
    (this1 this2 : MnistDataset) (isTrainingData : bool) :
  split_images this1 isTrainingData = split_images this2 isTrainingData ->
  split_labels this1 isTrainingData = split_labels this2 isTrainingData ->
  (getData_ isTrainingData this1).1 = (getData_ isTrainingData this2).1.
Proof.
  intros Himages Hlabels.
  rewrite (getData__outcome this1 isTrainingData _ _ eq_refl eq_refl).
  by rewrite (getData__outcome this2 isTrainingData _ _
                (eq_sym Himages) (eq_sym Hlabels)).
Qed.

(** The theorem at two loads with the same training files and different
    test files. *)
Lemma getData__reads_its_split_witness :
  (getData_ true (loadData fetch_mismatch 0 new_MnistDataset).2).1
  = (getData_ true (loadData fetch_failing 0
                      (loadData (serve (Resolved image_file_one)
                                       (Resolved label_file_10)
                                       (Resolved image_file_two)
                                       (Resolved label_file_3_7))
                                0 new_MnistDataset).2).2).1.
Proof.
  apply getData__reads_its_split; vm_compute; reflexivity.
Defined.

(** ** The values of a batch *)

Lemma elem_of_concat_fmap {A B : Type} (f : A -> list B) (l : list A) (y : B) :
  y ∈ concat (map f l) -> exists x, x ∈ l /\ y ∈ f x.
Proof.
  induction l as [|x l IH]; simpl; intros Hy; [by apply elem_of_nil in Hy|].
  apply elem_of_app in Hy as [Hy | Hy].
  - exists x. split; [left | done].
  - destruct (IH Hy) as (x' & Hx' & Hy'). exists x'. split; [by right | done].
Qed.

(** X13.  In a state an object can be in, every batch [getData_] returns
    holds image values from 0 to 1, each the normalized value of a byte of
    an image file, and label values that are 0.0 or 1.0. *)
Theorem getData__values (this : MnistDataset) (isTrainingData : bool)
    (result : ITrainDataSet) :
  Reachable this ->
  (getData_ isTrainingData this).1 = Resolved result ->
  (forall v, v ∈ values (xs result) ->
     (exists b, v = normalize_pixel (u8 b)) /\ (0 <= Q_of_float v <= 1)%Q) /\
  (forall v, v ∈ values (ys result) -> v = f32_zero \/ v = f32_one).
Proof.
  intros Hreach Hresult.
  destruct (Reachable_records this isTrainingData Hreach) as [Hw Hbytes].
  pose proof (singletons_length _ Hbytes) as Hone.
  destruct (decide (length (split_images this isTrainingData)
                    <= length (split_labels this isTrainingData))) as [Hle | Hgt].
  - rewrite getData__stacked_prefix in Hresult by done.
    cbn [fst] in Hresult. injection Hresult as <-. cbn [xs ys values]. split.
    + intros v Hv.
      assert (exists b, v = normalize_pixel (u8 b)) as [b ->].
      { rewrite <- (map_id (split_images this isTrainingData)) in Hv.
        apply elem_of_concat_fmap in Hv as (image & Himage & Hv).
        destruct (Reachable_state this Hreach)
          as [-> | (f & d0 & d1 & d2 & d3 & H0 & _ & H2 & _ & ->)].
        - destruct isTrainingData; by apply elem_of_nil in Himage.
        - assert (Hpix : forall url d, loadImages f url = Resolved d ->
            Forall (fun image => forall v, v ∈ image ->
                      exists b, v = normalize_pixel (u8 b)) d).
          { intros url d Hd. unfold loadImages in Hd.
            destruct (f url true) as [buffer|]; [|done].
            by apply decodeImages_pixels in Hd. }
          unfold split_images in Himage. simpl in Himage.
          destruct isTrainingData;
            [apply Hpix in H0 | apply Hpix in H2];
            rewrite Forall_forall in *; eauto. }
      split; [by exists b | apply normalize_pixel_unit_interval].
    + intros v Hv.
      apply elem_of_concat_fmap in Hv as (index & _ & Hv).
      repeat (apply elem_of_cons in Hv as [-> | Hv];
              [case_decide; [by right | by left]|]).
      by apply elem_of_nil in Hv.
  - rewrite getData__missing_label in Hresult by (done || lia). done.
Qed.

(** The theorem at the test split of the example files. *)
Lemma getData__values_witness :
  let result :=
    mkTrainDataSet
      (mkTensor (image_of_record image_file_one 0) [1; 28; 28; 1])
      (mkTensor (replicate 10 f32_zero) [1; 10]) in
  (forall v, v ∈ values (xs result) ->
     (exists b, v = normalize_pixel (u8 b)) /\ (0 <= Q_of_float v <= 1)%Q) /\
  (forall v, v ∈ values (ys result) -> v = f32_zero \/ v = f32_one).
Proof.
  apply (getData__values loaded_example false).
  - apply Reachable_loadData, Reachable_new.
  - vm_compute. reflexivity.
Defined.

(** The sizes theorem at the test split of the example files. *)
Lemma getData__sizes_witness :
  let result :=
    mkTrainDataSet
      (mkTensor (image_of_record image_file_one 0) [1; 28; 28; 1])
      (mkTensor (replicate 10 f32_zero) [1; 10]) in
  let size := length (split_images loaded_example false) in
  shape (xs result) = [size; 28; 28; 1] /\
  length (values (xs result)) = size * 784 /\
  shape (ys result) = [size; 10] /\
  length (values (ys result)) = size * 10.
Proof.
  apply (proj1 (getData__sizes loaded_example false)).
  vm_compute. reflexivity.
Defined.
